(** * Legacy model reference converter (horde_model_reference/legacy/convert_legacy.py)

    A shallow embedding of [LegacyConverterBase] and
    [LegacyStableDiffusionConverter]: the raw JSON input, Python's exceptions,
    the dictionaries the converter mutates, and the methods
    [_iterate_over_input_records], [generic_record_sanity_checks],
    [normalize_and_convert], [convert_legacy_baseline] and
    [normalize_and_convert_config_entries]. *)

From Stdlib Require Import String Ascii List Bool.
From stdpp Require Import base option strings pretty gmap.

Local Open Scope string_scope.
Import ListNotations.

(** ** Python values and exceptions *)

(** What [json.load] returns.  A JSON object is a [dict]: its keys are kept in
    the order of the document, which is the order a [for] loop visits them. *)
#[warnings="-register-all"]
Inductive json : Type :=
| JNull
| JBool (b : bool)
| JNum (n : Z)
| JStr (s : string)
| JArr (l : list json)
| JObj (m : list (string * json)).

(** The exceptions the converter can meet.  [ValidationError] is pydantic's and
    carries its text; [KeyError] carries the missing key ([None] when the key
    was Python's [None]). *)
Inductive exn : Type :=
| KeyError (k : option string)
| TypeError (msg : string)
| ValidationError (msg : string)
| OSError (msg : string)
| OtherError (msg : string).

Inductive result (A : Type) : Type :=
| Ok (a : A)
| Raise (e : exn).
Arguments Ok {A} a.
Arguments Raise {A} e.

Definition rbind {A B} (r : result A) (k : A -> result B) : result B :=
  match r with
  | Ok a => k a
  | Raise e => Raise e
  end.

(** A [for] loop over [l] whose body may raise: the first exception ends it. *)
Fixpoint rfold {A S} (body : S -> A -> result S) (l : list A) (s : S) : result S :=
  match l with
  | [] => Ok s
  | x :: l' => rbind (body s x) (rfold body l')
  end.

(** [d[k]] on a dict held as an ordered list of items. *)
Fixpoint dict_get {V} (k : string) (m : list (string * V)) : option V :=
  match m with
  | [] => None
  | (k', v) :: m' => if String.eqb k k' then Some v else dict_get k m'
  end.

(** [v[k]] for a [str] key [k]. *)
Definition py_getitem (v : json) (k : string) : result json :=
  match v with
  | JObj m => match dict_get k m with
              | Some x => Ok x
              | None => Raise (KeyError (Some k))
              end
  | JArr _ => Raise (TypeError "list indices must be integers or slices, not str")
  | JStr _ => Raise (TypeError "string indices must be integers")
  | _ => Raise (TypeError "object is not subscriptable")
  end.

Fixpoint chars (s : string) : list string :=
  match s with
  | EmptyString => []
  | String c s' => String c EmptyString :: chars s'
  end.

(** [len(v)]. *)
Definition py_len (v : json) : result nat :=
  match v with
  | JObj m => Ok (length m)
  | JArr l => Ok (length l)
  | JStr s => Ok (String.length s)
  | _ => Raise (TypeError "object has no len()")
  end.

(** What [for x in v] visits: the keys of a dict, the elements of a list, the
    characters of a string. *)
Definition py_iter (v : json) : result (list json) :=
  match v with
  | JObj m => Ok (map (fun kv => JStr (fst kv)) m)
  | JArr l => Ok l
  | JStr s => Ok (map JStr (chars s))
  | _ => Raise (TypeError "object is not iterable")
  end.

(** What [**v] accepts: a mapping with string keys. *)
Definition py_kwargs (v : json) : result (list (string * json)) :=
  match v with
  | JObj m => Ok m
  | _ => Raise (TypeError "argument after ** must be a mapping")
  end.

(** [sub in s] on strings. *)
Fixpoint str_contains (sub s : string) : bool :=
  if String.prefix sub s then true
  else match s with
       | EmptyString => false
       | String _ s' => str_contains sub s'
       end.

(** ** convert_legacy_baseline *)

Definition convert_legacy_baseline (baseline : string) : string :=
  if String.eqb baseline "stable diffusion 1" then "stable_diffusion_1"
  else if String.eqb baseline "stable diffusion 2" then "stable_diffusion_2_768"
  else if String.eqb baseline "stable diffusion 2 512" then "stable_diffusion_2_512"
  else baseline.

(** ** Records

    The pydantic classes of [legacy_model_database_records] are declared
    outside this module; their fields are the ones this module reads and
    writes. *)

Record Legacy_Config_FileRecord : Type := {
  fr_path : option string;
  fr_sha256sum : option string;
}.

Record Legacy_Config_DownloadRecord : Type := {
  dl_file_name : option string;
  dl_file_path : option string;
  dl_file_url : option string;
  dl_sha256sum : option string;
  dl_known_slow_download : bool;
}.

(** An element of a config list:
    [Legacy_Config_FileRecord | Legacy_Config_DownloadRecord]. *)
Inductive config_record : Type :=
| CfgFile (f : Legacy_Config_FileRecord)
| CfgDownload (d : Legacy_Config_DownloadRecord).

Record Legacy_StableDiffusion_ModelRecord : Type := {
  name : string;
  type : string;
  baseline : string;
  style : string;
  description : option string;
  available : bool;
  download_all : bool;
  showcases : option (list string);
  tags : option (list string);
  config : list (string * list config_record);
}.

Definition set_config (r : Legacy_StableDiffusion_ModelRecord)
    (c : list (string * list config_record)) : Legacy_StableDiffusion_ModelRecord :=
  {| name := name r; type := type r; baseline := baseline r; style := style r;
     description := description r; available := available r;
     download_all := download_all r; showcases := showcases r; tags := tags r;
     config := c |}.

Definition set_baseline (r : Legacy_StableDiffusion_ModelRecord) (b : string)
    : Legacy_StableDiffusion_ModelRecord :=
  {| name := name r; type := type r; baseline := b; style := style r;
     description := description r; available := available r;
     download_all := download_all r; showcases := showcases r; tags := tags r;
     config := config r |}.

Definition set_showcases (r : Legacy_StableDiffusion_ModelRecord) (l : list string)
    : Legacy_StableDiffusion_ModelRecord :=
  {| name := name r; type := type r; baseline := baseline r; style := style r;
     description := description r; available := available r;
     download_all := download_all r; showcases := Some l; tags := tags r;
     config := config r |}.

Definition set_sha256sum (d : Legacy_Config_DownloadRecord) (s : option string)
    : Legacy_Config_DownloadRecord :=
  {| dl_file_name := dl_file_name d; dl_file_path := dl_file_path d;
     dl_file_url := dl_file_url d; dl_sha256sum := s;
     dl_known_slow_download := dl_known_slow_download d |}.

Definition set_known_slow_download (d : Legacy_Config_DownloadRecord) (b : bool)
    : Legacy_Config_DownloadRecord :=
  {| dl_file_name := dl_file_name d; dl_file_path := dl_file_path d;
     dl_file_url := dl_file_url d; dl_sha256sum := dl_sha256sum d;
     dl_known_slow_download := b |}.

Definition clear_sha256sum (f : Legacy_Config_FileRecord) : Legacy_Config_FileRecord :=
  {| fr_path := fr_path f; fr_sha256sum := None |}.

(** A frequency table: a dict from string to int, in insertion order. *)
Definition counts : Type := list (string * nat).

(** [d[k] = d.get(k, 0) + 1]. *)
Fixpoint incr (k : string) (d : counts) : counts :=
  match d with
  | [] => [(k, 1)]
  | (k', n) :: d' => if String.eqb k k' then (k', S n) :: d' else (k', n) :: incr k d'
  end.

(** [d[k] = v] on a dict in insertion order. *)
Fixpoint dict_set {V} (k : string) (v : V) (d : list (string * V)) : list (string * V) :=
  match d with
  | [] => [(k, v)]
  | (k', v') :: d' => if String.eqb k k' then (k', v) :: d' else (k', v') :: dict_set k v d'
  end.

Fixpoint dict_remove {V} (k : string) (d : list (string * V)) : list (string * V) :=
  match d with
  | [] => []
  | (k', v') :: d' => if String.eqb k k' then dict_remove k d' else (k', v') :: dict_remove k d'
  end.

Record Legacy_StableDiffusion_ModelReference : Type := {
  baseline_types : counts;
  styles : counts;
  ref_tags : counts;
  model_hosts : counts;
  models : list (string * Legacy_StableDiffusion_ModelRecord);
}.

(** ** The process state

    [all_model_records] and [all_validation_errors_log] are attributes of the
    class [LegacyConverterBase]: each is one dict, created when the class
    body runs.  [__init__] binds neither name on the instance and no method
    assigns to [self.all_model_records] or [self.all_validation_errors_log]
    (they only store items into the dict), so in every instance of every
    subclass these names resolve to the class's dict.  They therefore live in
    the process state, not in the instance. *)
Record world : Type := {
  all_model_records : list (string * Legacy_StableDiffusion_ModelRecord);
  all_validation_errors_log : gmap string (list string);
  stdout : list string;
  made_dirs : list string;
  written_files : gmap string string;
}.

(** The state of a process that has just imported the module. *)
Definition fresh_process : world :=
  {| all_model_records := []; all_validation_errors_log := ∅; stdout := [];
     made_dirs := []; written_files := ∅ |}.

(** What [__init__] binds on [self]. *)
Record converter : Type := {
  legacy_database_filename : string;
  legacy_folder_path : string;
  legacy_database_path : string;
  converted_folder_path : string;
  converted_database_file_path : string;
  debug_mode : bool;
  print_errors : bool;
}.

Inductive MODEL_REFERENCE_TYPE : Type :=
| STABLE_DIFFUSION
| CONTROLNET.

(** ** What the module takes from elsewhere

    The functions of [consts], [util], pydantic, [urllib], [pathlib] and
    [glob] the converter calls, and what the file system answers during one
    run. *)
Record externals : Type := {
  (* consts *)
  MODEL_REFERENCE_GITHUB_REPO : string;
  get_model_reference_filename : MODEL_REFERENCE_TYPE -> option string -> string;
  (* util *)
  model_name_to_showcase_folder_name : string -> string;
  (* pydantic: [inl] is the text of the ValidationError *)
  parse_file_record : list (string * json) -> string + Legacy_Config_FileRecord;
  parse_download_record : list (string * json) -> string + Legacy_Config_DownloadRecord;
  parse_model_record : list (string * json) -> string + Legacy_StableDiffusion_ModelRecord;
  to_json : Legacy_StableDiffusion_ModelReference -> string;
  parse_new_model_reference : string -> option string;
  (* urllib.parse; [urlparse_netloc] is [None] when [urlparse] raises *)
  quote : string -> string;
  urljoin : string -> string -> string;
  urlparse_netloc : string -> option string;
  (* pathlib *)
  joinpath : string -> string -> string;
  path_name : string -> string;
  (* the disk: the first glob, the glob of one folder, the glob after the
     records were processed, and the kind and entries of what it found *)
  glob_showcase_before : list string;
  glob_folder : string -> list string;
  glob_showcase_after : list string;
  is_file : string -> bool;
  is_dir : string -> bool;
  iterdir : string -> result (list string);
  (* the disk: what [open(path, "w")] answers, given the folders this process
     has made so far; it raises when the folder of the file does not exist *)
  open_for_write : list string -> string -> result unit;
  (* repr, for the report *)
  repr_counts : counts -> string;
  repr_nat : nat -> string;
}.

(** ** Statements that change the process state and may raise *)

Definition M (A : Type) : Type := world -> result A * world.

Definition ret {A} (a : A) : M A := fun w => (Ok a, w).

Definition bind {A B} (c : M A) (k : A -> M B) : M B :=
  fun w => match c w with
           | (Ok a, w') => k a w'
           | (Raise e, w') => (Raise e, w')
           end.

Definition raise {A} (e : exn) : M A := fun w => (Raise e, w).

Definition lift {A} (r : result A) : M A := fun w => (r, w).

Notation "x <- c ;; k" := (bind c (fun x => k))
  (at level 100, c at next level, right associativity).
Notation "c ;;; k" := (bind c (fun _ => k))
  (at level 100, right associativity).

Definition when (b : bool) (c : M unit) : M unit := if b then c else ret tt.

(** A [for] loop whose body changes the state. *)
Fixpoint for_each {A S} (body : S -> A -> M S) (l : list A) (s : S) : M S :=
  match l with
  | [] => ret s
  | x :: l' => s' <- body s x ;; for_each body l' s'
  end.

Definition print (line : string) : M unit :=
  fun w => (Ok tt,
            {| all_model_records := all_model_records w;
               all_validation_errors_log := all_validation_errors_log w;
               stdout := (stdout w ++ [line])%list;
               made_dirs := made_dirs w;
               written_files := written_files w |}).

Definition log_append (k error : string) (log : gmap string (list string))
    : gmap string (list string) :=
  <[k := (default [] (log !! k) ++ [error])%list]> log.

Definition add_validation_error_to_log (self : converter)
    (model_record_key error : string) : M unit :=
  (fun w => (Ok tt,
            {| all_model_records := all_model_records w;
               all_validation_errors_log :=
                 log_append model_record_key error (all_validation_errors_log w);
               stdout := stdout w;
               made_dirs := made_dirs w;
               written_files := written_files w |})) ;;;
  when (print_errors self) (print ("-> " +:+ error)).

(** [self.all_model_records[k] = r]. *)
Definition store_record (k : string) (r : Legacy_StableDiffusion_ModelRecord) : M unit :=
  fun w => (Ok tt,
            {| all_model_records := dict_set k r (all_model_records w);
               all_validation_errors_log := all_validation_errors_log w;
               stdout := stdout w;
               made_dirs := made_dirs w;
               written_files := written_files w |}).

(** [Path.mkdir(parents=True, exist_ok=True)]. *)
Definition mkdir (p : string) : M unit :=
  fun w => (Ok tt,
            {| all_model_records := all_model_records w;
               all_validation_errors_log := all_validation_errors_log w;
               stdout := stdout w;
               made_dirs := (made_dirs w ++ [p])%list;
               written_files := written_files w |}).

(** [with open(p, "w") as f: f.write(content)].  [opening] is what the disk
    answers to [open(p, "w")] given the folders made so far: when it raises
    (the folder of [p] does not exist), nothing is written. *)
Definition write_file (opening : list string -> string -> result unit)
    (p content : string) : M unit :=
  fun w => match opening (made_dirs w) p with
           | Ok _ =>
               (Ok tt,
                {| all_model_records := all_model_records w;
                   all_validation_errors_log := all_validation_errors_log w;
                   stdout := stdout w;
                   made_dirs := made_dirs w;
                   written_files := <[p := content]> (written_files w) |})
           | Raise e => (Raise e, w)
           end.

(** [try: body except ValidationError as e: handler e]. *)
Definition try_except_ValidationError {A} (body : M A) (handler : string -> M A) : M A :=
  fun w => match body w with
           | (Raise (ValidationError e), w') => handler e w'
           | other => other
           end.

(** [try: body except Exception as e: handler; raise e]. *)
Definition try_except_reraise {A} (body : M A) (handler : M unit) : M A :=
  fun w => match body w with
           | (Raise e, w') => (handler ;;; raise e) w'
           | other => other
           end.

Definition get_world : M world := fun w => (Ok w, w).

Definition nl : string := String (ascii_of_nat 10) EmptyString.

(** [v == s] for a value read from JSON and a [str] literal. *)
Definition json_is_str (v : json) (s : string) : bool :=
  match v with
  | JStr s' => String.eqb s' s
  | _ => false
  end.

Definition is_none_or_empty (o : option string) : bool :=
  match o with
  | None => true
  | Some s => String.eqb s ""
  end.

Section Converter.

Variable X : externals.

(** ** LegacyConverterBase *)

Definition LegacyConverterBase_init (legacy_folder_path target_file_folder : string)
    (model_reference_type : MODEL_REFERENCE_TYPE) (debug_mode print_errors : bool)
    : M converter :=
  let filename := get_model_reference_filename X model_reference_type None in
  ret {| legacy_database_filename := filename;
         legacy_folder_path := legacy_folder_path;
         legacy_database_path :=
           get_model_reference_filename X model_reference_type (Some legacy_folder_path);
         converted_folder_path := target_file_folder;
         converted_database_file_path := joinpath X target_file_folder filename;
         debug_mode := debug_mode;
         print_errors := print_errors |}.

Definition LegacyStableDiffusionConverter_init (legacy_folder_path target_file_folder : string)
    (debug_mode print_errors : bool) : M converter :=
  LegacyConverterBase_init legacy_folder_path target_file_folder STABLE_DIFFUSION
    debug_mode print_errors.

Definition LegacyControlnetConverter_init (legacy_folder_path target_file_folder : string)
    (debug_mode print_errors : bool) : M converter :=
  LegacyConverterBase_init legacy_folder_path target_file_folder CONTROLNET
    debug_mode print_errors.

(** *** _iterate_over_input_records *)

(** The three locals of one pass of the outer loop: [sha_lookup],
    [new_record_config_files_list] and [new_record_config_download_list]. *)
Record locals : Type := {
  sha_lookup : gmap string (option string);
  new_record_config_files_list : list Legacy_Config_FileRecord;
  new_record_config_download_list : list Legacy_Config_DownloadRecord;
}.

Definition no_locals : locals :=
  {| sha_lookup := ∅; new_record_config_files_list := [];
     new_record_config_download_list := [] |}.

(** Body of [for config_file in model_record_contents["config"]["files"]]. *)
Definition files_body (st : locals) (config_file : json) : result locals :=
  rbind (py_kwargs config_file) (fun kw =>
  match parse_file_record X kw with
  | inl e => Raise (ValidationError e)
  | inr parsed_file_record =>
      match fr_path parsed_file_record with
      | None => Raise (TypeError "argument of type 'NoneType' is not iterable")
      | Some p =>
          if str_contains ".yaml" p then Ok st
          else Ok {| sha_lookup := <[p := fr_sha256sum parsed_file_record]> (sha_lookup st);
                     new_record_config_files_list :=
                       (new_record_config_files_list st
                          ++ [clear_sha256sum parsed_file_record])%list;
                     new_record_config_download_list :=
                       new_record_config_download_list st |}
      end
  end).

(** [sha_lookup[file_name]]. *)
Definition sha_lookup_get (t : gmap string (option string)) (file_name : option string)
    : result (option string) :=
  match file_name with
  | None => Raise (KeyError None)
  | Some n => match t !! n with
              | Some s => Ok s
              | None => Raise (KeyError (Some n))
              end
  end.

(** Body of [for download in model_record_contents["config"]["download"]]. *)
Definition download_body (st : locals) (download : json) : result locals :=
  rbind (py_kwargs download) (fun kw =>
  match parse_download_record X kw with
  | inl e => Raise (ValidationError e)
  | inr parsed_download_record =>
      rbind (sha_lookup_get (sha_lookup st) (dl_file_name parsed_download_record)) (fun s =>
      Ok {| sha_lookup := sha_lookup st;
            new_record_config_files_list := new_record_config_files_list st;
            new_record_config_download_list :=
              (new_record_config_download_list st
                 ++ [set_sha256sum parsed_download_record s])%list |})
  end).

(** Body of [for config_entry in model_record_contents["config"]]. *)
Definition config_entry_body (cfg : json) (st : locals) (config_entry : json)
    : result locals :=
  if json_is_str config_entry "files" then
    rbind (py_getitem cfg "files") (fun v =>
    rbind (py_iter v) (fun items => rfold files_body items st))
  else if json_is_str config_entry "download" then
    rbind (py_getitem cfg "download") (fun v =>
    rbind (py_iter v) (fun items => rfold download_body items st))
  else Ok st.

(** Modelled from the spec: the record classes of
    [legacy_model_database_records] are not part of this module.  The typed
    record is built by pydantic from the raw fields and carries the config
    mapping its constructor was given ("After normalization, only the download
    sub-collection survives in the record"). *)
Definition modelrecord_type (contents : list (string * json))
    (cfg : list (string * list config_record))
    : result Legacy_StableDiffusion_ModelRecord :=
  match parse_model_record X (dict_remove "config" contents) with
  | inl e => Raise (ValidationError e)
  | inr r => Ok (set_config r cfg)
  end.

(** The [try] block of one pass of the outer loop, up to the [yield]. *)
Definition normalize_record (self : converter) (model_record_key : string)
    (model_record_contents : json) : M Legacy_StableDiffusion_ModelRecord :=
  cfg <- lift (py_getitem model_record_contents "config") ;;
  n <- lift (py_len cfg) ;;
  when (2 <? n)%nat
    (add_validation_error_to_log self model_record_key
       (model_record_key +:+ " has more than 2 config entries.")) ;;;
  entries <- lift (py_iter cfg) ;;
  st <- lift (rfold (config_entry_body cfg) entries no_locals) ;;
  kw <- lift (py_kwargs model_record_contents) ;;
  record_as_conversion_class <-
    lift (modelrecord_type kw
            [("download", map CfgDownload (new_record_config_download_list st))]) ;;
  store_record model_record_key record_as_conversion_class ;;;
  ret record_as_conversion_class.

(** One pass of the outer loop: the record it yields, or [None] when the
    [except ValidationError] clause ran and the loop went on. *)
Definition iterate_step (self : converter) (model_record_key : string)
    (model_record_contents : json) : M (option Legacy_StableDiffusion_ModelRecord) :=
  try_except_ValidationError
    (r <- normalize_record self model_record_key model_record_contents ;; ret (Some r))
    (fun e =>
       add_validation_error_to_log self model_record_key
         ("CRITICAL: Error parsing " +:+ model_record_key +:+ ":" +:+ nl +:+ e) ;;;
       ret None).

(** *** generic_record_sanity_checks

    [record.config is None] cannot hold for a record built by
    [normalize_record], whose config is a dict. *)
Definition generic_record_sanity_checks (self : converter) (model_record_key : string)
    (record : Legacy_StableDiffusion_ModelRecord) : M unit :=
  when (negb (String.eqb (name record) model_record_key))
    (add_validation_error_to_log self model_record_key
       ("name mismatch for " +:+ model_record_key +:+ ".")) ;;;
  when (available record)
    (add_validation_error_to_log self model_record_key
       (model_record_key +:+ " is flagged 'available'.")) ;;;
  when (download_all record)
    (when (debug_mode self)
       (add_validation_error_to_log self model_record_key
          (model_record_key +:+ " has download_all set."))) ;;;
  when (match description record with None => true | Some _ => false end)
    (add_validation_error_to_log self model_record_key
       (model_record_key +:+ " has no description.")) ;;;
  when (String.eqb (style record) "")
    (add_validation_error_to_log self model_record_key
       (model_record_key +:+ " has no style.")).

(** ** LegacyStableDiffusionConverter *)

Definition default_showcase_folder_name : string := "showcase".

(** *** get_existing_showcases *)
Definition get_existing_showcases (existing_showcase_folders : list string)
    : gmap string (list string) :=
  fold_left
    (fun existing_showcase_files showcase_folder =>
       <[model_name_to_showcase_folder_name X (path_name X showcase_folder) :=
           glob_folder X (joinpath X showcase_folder "*")]> existing_showcase_files)
    existing_showcase_folders ∅.

(** *** create_showcase_folder *)
Definition create_showcase_folder (self : converter) (expected_showcase_foldername : string)
    : M unit :=
  mkdir (joinpath X (joinpath X (converted_folder_path self) default_showcase_folder_name)
           expected_showcase_foldername).

(** *** normalize_and_convert_config_entries *)

(** Body of [for config_file in config_entry_object] under ["files"]. *)
Definition check_file (model_record_key : string) (config_file : config_record) : M unit :=
  match config_file with
  | CfgDownload _ =>
      print (model_record_key +:+ " is in 'files' but isn't a `Legacy_Config_FileRecord`!") ;;;
      raise (TypeError "Expected `Legacy_Config_FileRecord`.")
  | CfgFile f =>
      when (is_none_or_empty (fr_path f))
        (print (model_record_key +:+ " has a config file with no path.")) ;;;
      match fr_path f with
      | None => raise (TypeError "argument of type 'NoneType' is not iterable")
      | Some p =>
          if str_contains ".yaml" p then
            when (negb (String.eqb p "v2-inference-v.yaml")
                  && negb (String.eqb p "v1-inference.yaml"))
              (print (model_record_key +:+ " has a non-standard config."))
          else
            when (negb (str_contains ".ckpt" p))
              (print (model_record_key +:+ " does not have a ckpt file specified.")) ;;;
            if is_none_or_empty (fr_sha256sum f) then
              print (model_record_key +:+ " has a config file with no sha256sum.")
            else
              when (negb (String.length (default "" (fr_sha256sum f)) =? 64)%nat)
                (print (model_record_key +:+ " has a config file with an invalid sha256sum."))
      end
  end.

(** Body of [for download in config_entry_object] under ["download"], past
    the [isinstance] guard.  The state is [download_hosts] and the downloads
    visited so far, as the loop left them ([known_slow_download] is set on the
    object itself). *)
Definition check_download_record (model_record_key : string)
    (st : counts * list config_record) (d : Legacy_Config_DownloadRecord)
    : M (counts * list config_record) :=
  when (is_none_or_empty (dl_file_name d))
    (print (model_record_key +:+ " has a download with no file_name.")) ;;;
  when (match dl_file_path d with
        | None => true
        | Some p => negb (String.eqb p "")
        end)
    (print (model_record_key +:+ " has a download with a file_path.")) ;;;
  if is_none_or_empty (dl_file_url d) then
    print (model_record_key +:+ " has a download with no file_url.") ;;;
    ret (fst st, (snd st ++ [CfgDownload d])%list)
  else
    let url := default "" (dl_file_url d) in
    let d' := if str_contains "civitai" url then set_known_slow_download d true else d in
    try_except_reraise
      (match urlparse_netloc X url with
       | Some host => ret (incr host (fst st), (snd st ++ [CfgDownload d'])%list)
       | None => raise (OtherError "urlparse")
       end)
      (print (model_record_key +:+ " has a download with an invalid file_url.")).

Definition check_download (model_record_key : string)
    (st : counts * list config_record) (download : config_record)
    : M (counts * list config_record) :=
  match download with
  | CfgFile _ =>
      print (model_record_key
             +:+ " is in 'download' but isn't a `Legacy_Config_DownloadRecord`!") ;;;
      raise (TypeError "Expected `Legacy_Config_DownloadRecord`.")
  | CfgDownload d => check_download_record model_record_key st d
  end.

(** Body of [for config_entry_key, config_entry_object in config_entries.items()].
    The state is [download_hosts] and the entries visited so far. *)
Definition check_config_entry (model_record_key : string)
    (st : counts * list (string * list config_record))
    (entry : string * list config_record)
    : M (counts * list (string * list config_record)) :=
  let '(config_entry_key, config_entry_object) := entry in
  if String.eqb config_entry_key "files" then
    for_each (fun _ f => check_file model_record_key f) config_entry_object tt ;;;
    ret (fst st, (snd st ++ [entry])%list)
  else if String.eqb config_entry_key "download" then
    r <- for_each (check_download model_record_key) config_entry_object (fst st, []) ;;
    ret (fst r, (snd st ++ [(config_entry_key, snd r)])%list)
  else ret (fst st, (snd st ++ [entry])%list).

(** Returns [download_hosts] and [config_entries] as the call left it. *)
Definition normalize_and_convert_config_entries (model_record_key : string)
    (config_entries : list (string * list config_record))
    : M (counts * list (string * list config_record)) :=
  for_each (check_config_entry model_record_key) config_entries ([], []).

(** *** normalize_and_convert *)

(** The four frequency tables local to one call. *)
Record tables : Type := {
  all_baseline_types : counts;
  all_styles : counts;
  all_tags : counts;
  all_model_hosts : counts;
}.

Definition no_tables : tables :=
  {| all_baseline_types := []; all_styles := []; all_tags := []; all_model_hosts := [] |}.

Definition showcase_url (expected_showcase_foldername file : string) : string :=
  urljoin X (MODEL_REFERENCE_GITHUB_REPO X)
    (default_showcase_folder_name +:+ "/" +:+ expected_showcase_foldername +:+ "/"
       +:+ quote X (path_name X file)).

(** "Showcase handling and sanity checks": the record is the object held in
    [all_model_records], so each assignment to it is seen there. *)
Definition reconcile_showcases (self : converter)
    (existing_showcase_files : gmap string (list string))
    (model_record_key expected_showcase_foldername : string)
    (r : Legacy_StableDiffusion_ModelRecord) : M Legacy_StableDiffusion_ModelRecord :=
  match showcases r with
  | Some ((_ :: _) as declared) =>
      when (existsb (str_contains "huggingface") declared)
        (add_validation_error_to_log self model_record_key
           (model_record_key +:+ " has a huggingface showcase.")) ;;;
      when (match existing_showcase_files !! expected_showcase_foldername with
            | None => true
            | Some _ => false
            end)
        (add_validation_error_to_log self model_record_key
           (model_record_key +:+ " has no showcase folder. Expected: "
              +:+ expected_showcase_foldername)) ;;;
      store_record model_record_key (set_showcases r []) ;;;
      match existing_showcase_files !! expected_showcase_foldername with
      | None => raise (KeyError (Some expected_showcase_foldername))
      | Some files =>
          let r' := set_showcases r (map (showcase_url expected_showcase_foldername) files) in
          store_record model_record_key r' ;;;
          ret r'
      end
  | _ => ret r
  end.

(** Body of [for model_record_key, model_record_in_progress in all_model_iterator].
    The two [ValueError] guards cannot fire: the iterator yields records of
    the class it was given.  The record is the object held in
    [all_model_records]; it is stored again after each statement that assigns
    to it.  Should the config checks raise, the flags they had set on the
    downloads visited so far are not stored: the run is over. *)
Definition process_record (self : converter)
    (existing_showcase_files : gmap string (list string)) (t : tables)
    (model_record_key : string) (r0 : Legacy_StableDiffusion_ModelRecord) : M tables :=
  generic_record_sanity_checks self model_record_key r0 ;;;
  let styles1 := incr (style r0) (all_styles t) in
  when (negb (String.eqb (type r0) "ckpt"))
    (add_validation_error_to_log self model_record_key
       (model_record_key +:+ " is not a ckpt!")) ;;;
  let r1 := set_baseline r0 (convert_legacy_baseline (baseline r0)) in
  store_record model_record_key r1 ;;;
  let baselines1 := incr (baseline r1) (all_baseline_types t) in
  let expected_showcase_foldername :=
    model_name_to_showcase_folder_name X model_record_key in
  create_showcase_folder self expected_showcase_foldername ;;;
  r2 <- reconcile_showcases self existing_showcase_files model_record_key
          expected_showcase_foldername r1 ;;
  let tags1 := match tags r2 with
               | Some l => fold_left (fun acc tag => incr tag acc) l (all_tags t)
               | None => all_tags t
               end in
  when (length (config r2) =? 0)%nat
    (add_validation_error_to_log self model_record_key
       (model_record_key +:+ " has no config.")) ;;;
  found <- normalize_and_convert_config_entries model_record_key (config r2) ;;
  store_record model_record_key (set_config r2 (snd found)) ;;;
  ret {| all_baseline_types := baselines1;
         all_styles := styles1;
         all_tags := tags1;
         all_model_hosts :=
           fold_left (fun acc host => incr (fst host) acc) (fst found) (all_model_hosts t) |}.

(** One pass of the iterator's loop followed by the pass of the caller's loop
    over what it yielded. *)
Definition stream_record (self : converter)
    (existing_showcase_files : gmap string (list string)) (t : tables)
    (item : string * json) : M tables :=
  o <- iterate_step self (fst item) (snd item) ;;
  match o with
  | None => ret t
  | Some r => process_record self existing_showcase_files t (fst item) r
  end.

(** The checks on the showcase folders found after all records were seen. *)
Definition check_final_folders (self : converter) : M (list string) :=
  let final_on_disk_showcase_folders := glob_showcase_after X in
  for_each
    (fun _ folder =>
       if is_file X folder then ret tt
       else
         entries <- lift (iterdir X folder) ;;
         when (match entries with [] => true | _ => false end)
           (add_validation_error_to_log self (path_name X folder)
              ("showcase folder '" +:+ path_name X folder +:+ "' is empty.")))
    final_on_disk_showcase_folders tt ;;;
  let final_on_disk_showcase_folders_names :=
    map (path_name X) (List.filter (is_dir X) final_on_disk_showcase_folders) in
  w <- get_world ;;
  let final_expected_showcase_folders :=
    map (fun kv => model_name_to_showcase_folder_name X (fst kv)) (all_model_records w) in
  for_each
    (fun _ folder =>
       when (negb (existsb (String.eqb folder) final_expected_showcase_folders))
         (add_validation_error_to_log self folder
            ("folder '" +:+ folder +:+ "' is not in the model records.")))
    final_on_disk_showcase_folders_names tt ;;;
  ret final_on_disk_showcase_folders_names.

Definition print_report (t : tables) (final_on_disk_showcase_folders_names : list string)
    : M unit :=
  w <- get_world ;;
  print "" ;;;
  print ("all_styles=" +:+ repr_counts X (all_styles t)) ;;;
  print ("all_baseline_types=" +:+ repr_counts X (all_baseline_types t)) ;;;
  print ("all_tags=" +:+ repr_counts X (all_tags t)) ;;;
  print ("all_model_hosts=" +:+ repr_counts X (all_model_hosts t)) ;;;
  print "" ;;;
  print ("Total number of models: " +:+ repr_nat X (length (all_model_records w))) ;;;
  print ("Total number of showcase folders: "
         +:+ repr_nat X (length final_on_disk_showcase_folders_names)) ;;;
  print "" ;;;
  print ("Total number of models with errors: "
         +:+ repr_nat X (size (all_validation_errors_log w))) ;;;
  print "" ;;;
  print "Errors and warnings are listed above on lines prefixed with `-> `".

Definition make_model_reference (t : tables) (w : world)
    : Legacy_StableDiffusion_ModelReference :=
  {| baseline_types := all_baseline_types t;
     styles := all_styles t;
     ref_tags := all_tags t;
     model_hosts := all_model_hosts t;
     models := all_model_records w |}.

(** From the construction of [modelReference] to the end. *)
Definition validate_and_write (self : converter) (t : tables) : M bool :=
  w <- get_world ;;
  let modelReference := make_model_reference t w in
  let jsonToWrite := to_json X modelReference in
  match parse_new_model_reference X jsonToWrite with
  | Some e =>
      print e ;;;
      print "CRITICAL: Failed to convert to new model reference type." ;;;
      raise (ValidationError e)
  | None =>
      write_file (open_for_write X) (converted_database_file_path self) jsonToWrite ;;;
      print "Converted database passes validation and was written to disk successfully." ;;;
      print ("Converted database written to: " +:+ converted_database_file_path self) ;;;
      ret true
  end.

(** [normalize_and_convert] up to the report.  [raw_legacy_json_data] is what
    [json.load] read from [legacy_database_path]. *)
Definition convert_and_report (self : converter)
    (raw_legacy_json_data : list (string * json)) : M tables :=
  let existing_showcase_files := get_existing_showcases (glob_showcase_before X) in
  t <- for_each (stream_record self existing_showcase_files) raw_legacy_json_data no_tables ;;
  names <- check_final_folders self ;;
  print_report t names ;;;
  ret t.

Definition normalize_and_convert (self : converter)
    (raw_legacy_json_data : list (string * json)) : M bool :=
  t <- convert_and_report self raw_legacy_json_data ;;
  validate_and_write self t.

End Converter.

(** ** A concrete environment

    Small stand-ins for the library functions and a disk with one showcase
    folder, to run the converter on examples. *)
Module Demo.

Definition str_field (k : string) (o : list (string * json)) : option string :=
  match dict_get k o with
  | Some (JStr s) => Some s
  | _ => None
  end.

Definition bool_field (k : string) (o : list (string * json)) : bool :=
  match dict_get k o with
  | Some (JBool b) => b
  | _ => false
  end.

Definition strs_field (k : string) (o : list (string * json)) : option (list string) :=
  match dict_get k o with
  | Some (JArr l) =>
      Some (omap (fun j => match j with JStr s => Some s | _ => None end) l)
  | _ => None
  end.

Definition parse_file (o : list (string * json)) : string + Legacy_Config_FileRecord :=
  match str_field "path" o with
  | Some p => inr {| fr_path := Some p; fr_sha256sum := str_field "sha256sum" o |}
  | None => inl "path: field required"
  end.

Definition parse_download (o : list (string * json)) : string + Legacy_Config_DownloadRecord :=
  match str_field "file_name" o, str_field "file_url" o with
  | Some n, Some u =>
      inr {| dl_file_name := Some n;
             dl_file_path := Some (default "" (str_field "file_path" o));
             dl_file_url := Some u;
             dl_sha256sum := None;
             dl_known_slow_download := bool_field "known_slow_download" o |}
  | None, _ => inl "file_name: field required"
  | _, None => inl "file_url: field required"
  end.

Definition parse_model (o : list (string * json)) : string + Legacy_StableDiffusion_ModelRecord :=
  match str_field "name" o with
  | Some n =>
      inr {| name := n;
             type := default "" (str_field "type" o);
             baseline := default "" (str_field "baseline" o);
             style := default "" (str_field "style" o);
             description := str_field "description" o;
             available := bool_field "available" o;
             download_all := bool_field "download_all" o;
             showcases := strs_field "showcases" o;
             tags := strs_field "tags" o;
             config := [] |}
  | None => inl "name: field required"
  end.

Fixpoint replace_space (by_ s : string) : string :=
  match s with
  | EmptyString => EmptyString
  | String c s' =>
      if Ascii.eqb c " " then by_ +:+ replace_space by_ s'
      else String c (replace_space by_ s')
  end.

Fixpoint last_segment (s acc : string) : string :=
  match s with
  | EmptyString => acc
  | String c s' =>
      if Ascii.eqb c "/" then last_segment s' EmptyString
      else last_segment s' (acc +:+ String c EmptyString)
  end.

Fixpoint after_slashes (s : string) : option string :=
  match s with
  | EmptyString => None
  | String c s' =>
      if Ascii.eqb c "/" && String.prefix "/" s' then Some (String.substring 1 (String.length s') s')
      else after_slashes s'
  end.

Fixpoint until_slash (s : string) : string :=
  match s with
  | EmptyString => EmptyString
  | String c s' => if Ascii.eqb c "/" then EmptyString else String c (until_slash s')
  end.

(** Like [urlparse], refuses a host with an unmatched bracket. *)
Definition netloc (url : string) : option string :=
  let host := match after_slashes url with
              | Some r => until_slash r
              | None => EmptyString
              end in
  if xorb (str_contains "[" host) (str_contains "]" host) then None else Some host.

Definition render_models (l : list (string * Legacy_StableDiffusion_ModelRecord)) : string :=
  String.concat ";" (map (fun kv => fst kv +:+ ":baseline=" +:+ baseline (snd kv)) l).

Definition render_counts (c : counts) : string :=
  String.concat "," (map (fun kv => fst kv +:+ "*" +:+ pretty (snd kv)) c).

Definition folder_a : string := "horde_model_reference/showcase/model_a".

(** The folder a path is in: the path up to its last "/". *)
Fixpoint dirname_from (s seen folder : string) : string :=
  match s with
  | EmptyString => folder
  | String c s' =>
      if Ascii.eqb c "/" then dirname_from s' (seen +:+ "/") seen
      else dirname_from s' (seen +:+ String c EmptyString) folder
  end.

Definition dirname (p : string) : string := dirname_from p EmptyString EmptyString.

(** The folders of the demo disk when the process starts. *)
Definition disk_folders : list string := ["legacy"; "out"; "out2"].

(** A folder exists when it was on the disk or when [mkdir] made it, itself
    or as a parent of a folder it made. *)
Definition folder_exists (made : list string) (folder : string) : bool :=
  existsb (String.eqb folder) disk_folders
  || existsb (fun d => String.eqb d folder || String.prefix (folder +:+ "/") d) made.

(** [open(p, "w")] raises when the folder of [p] does not exist. *)
Definition opening (made : list string) (p : string) : result unit :=
  if folder_exists made (dirname p) then Ok tt
  else Raise (OSError "No such file or directory").

Definition env : externals :=
  {| MODEL_REFERENCE_GITHUB_REPO := "https://example.org/reference/";
     get_model_reference_filename :=
       fun t base =>
         let f := match t with
                  | STABLE_DIFFUSION => "stable_diffusion.json"
                  | CONTROLNET => "controlnet.json"
                  end in
         match base with
         | Some b => b +:+ "/" +:+ f
         | None => f
         end;
     model_name_to_showcase_folder_name := replace_space "_";
     parse_file_record := parse_file;
     parse_download_record := parse_download;
     parse_model_record := parse_model;
     to_json := fun r => "{" +:+ render_models (models r) +:+ "}";
     parse_new_model_reference :=
       fun s => if str_contains "baseline=;" s || str_contains "baseline=}" s
                then Some "baseline: none is not an allowed value" else None;
     quote := replace_space "%20";
     urljoin := fun base rel => base +:+ rel;
     urlparse_netloc := netloc;
     joinpath := fun a b => a +:+ "/" +:+ b;
     path_name := fun p => last_segment p EmptyString;
     glob_showcase_before := [folder_a];
     glob_folder :=
       fun pattern =>
         if String.eqb pattern (folder_a +:+ "/*")
         then [folder_a +:+ "/first image.png"; folder_a +:+ "/second.png"]
         else [];
     glob_showcase_after := [folder_a];
     is_file := fun _ => false;
     is_dir := fun _ => true;
     iterdir :=
       fun p => if String.eqb p folder_a
                then Ok [folder_a +:+ "/first image.png"; folder_a +:+ "/second.png"]
                else Ok [];
     open_for_write := opening;
     repr_counts := render_counts;
     repr_nat := pretty |}.

Definition self : converter :=
  {| legacy_database_filename := "stable_diffusion.json";
     legacy_folder_path := "legacy";
     legacy_database_path := "legacy/stable_diffusion.json";
     converted_folder_path := "out";
     converted_database_file_path := "out/stable_diffusion.json";
     debug_mode := false;
     print_errors := true |}.

Definition file_descriptor (p sha : string) : json :=
  JObj [("path", JStr p); ("sha256sum", JStr sha)].

Definition download_descriptor (n u : string) : json :=
  JObj [("file_name", JStr n); ("file_url", JStr u)].

(** The fields of a legacy record with the given showcases and config. *)
Definition legacy_fields (n : string) (showcase : list string) (cfg : json)
    : list (string * json) :=
  [("name", JStr n); ("type", JStr "ckpt"); ("baseline", JStr "stable diffusion 1");
   ("style", JStr "generalist"); ("description", JStr "a model");
   ("showcases", JArr (map JStr showcase)); ("config", cfg)].

Definition legacy_record (n : string) (showcase : list string) (cfg : json) : json :=
  JObj (legacy_fields n showcase cfg).

Definition sha64 : string :=
  "0123456789abcdef0123456789abcdef0123456789abcdef0123456789abcdef".

Definition ckpt_file : json := file_descriptor "model.ckpt" sha64.
Definition yaml_file : json := file_descriptor "v1-inference.yaml" "0".
Definition ckpt_download : json := download_descriptor "model.ckpt" "https://civitai.com/x".

(** "files" listed before "download", as in the legacy database. *)
Definition files_first : list (string * json) :=
  [("files", JArr [ckpt_file; yaml_file]); ("download", JArr [ckpt_download])].

(** The same config with "download" listed before "files". *)
Definition download_first : list (string * json) :=
  [("download", JArr [ckpt_download]); ("files", JArr [ckpt_file; yaml_file])].

(** A download whose file name no file descriptor has. *)
Definition missing_file : list (string * json) :=
  [("files", JArr [ckpt_file]);
   ("download", JArr [download_descriptor "missing.ckpt" "https://example.org/m"])].

(** A download with no file name, a file path and no URL. *)
Definition odd_download : list (string * json) :=
  [("files", JArr [file_descriptor "" sha64]);
   ("download",
    JArr [JObj [("file_name", JStr ""); ("file_path", JStr "models");
                ("file_url", JStr "")]])].

(** A download whose URL has an unmatched bracket in its host. *)
Definition bad_url : list (string * json) :=
  [("files", JArr [ckpt_file]);
   ("download", JArr [download_descriptor "model.ckpt" "https://[civitai/x"])].

Definition database_missing_file : list (string * json) :=
  [("model b", legacy_record "model b" [] (JObj missing_file));
   ("model a", legacy_record "model a" [] (JObj files_first))].

Definition database_odd_download : list (string * json) :=
  [("model a", legacy_record "model a" [] (JObj odd_download))].

Definition database_declared : list (string * json) :=
  [("model a", legacy_record "model a" ["https://huggingface.co/old.png"] (JObj files_first))].

Definition database_undeclared : list (string * json) :=
  [("model a", legacy_record "model a" [] (JObj files_first))].

(** A typed record that declares one showcase. *)
Definition declared_record : Legacy_StableDiffusion_ModelRecord :=
  {| name := "model a"; type := "ckpt"; baseline := "stable diffusion 1";
     style := "generalist"; description := Some "a model"; available := false;
     download_all := false; showcases := Some ["https://huggingface.co/old.png"];
     tags := None; config := [("download", [])] |}.

(** A record whose config lists "download" first, followed by a well-formed
    one. *)
Definition database_download_first : list (string * json) :=
  [("model a", legacy_record "model a" [] (JObj download_first));
   ("model b", legacy_record "model b" [] (JObj files_first))].

(** A converter whose target folder is not on the disk runs on an empty
    database. *)
Definition run_without_target_folder : M bool :=
  a <- LegacyStableDiffusionConverter_init env "legacy" "absent" false true ;;
  normalize_and_convert env a [].

(** One converter runs on a database, then a second converter is built and
    runs on an empty database. *)
Definition two_runs : M (list (string * Legacy_StableDiffusion_ModelRecord)
                         * gmap string (list string)) :=
  a <- LegacyStableDiffusionConverter_init env "legacy" "out" false true ;;
  normalize_and_convert env a database_declared ;;;
  b <- LegacyStableDiffusionConverter_init env "legacy" "out2" false true ;;
  w <- get_world ;;
  normalize_and_convert env b [] ;;;
  ret (all_model_records w, all_validation_errors_log w).

(** A converter built with [print_errors=False]. *)
Definition quiet : converter :=
  {| legacy_database_filename := "stable_diffusion.json";
     legacy_folder_path := "legacy";
     legacy_database_path := "legacy/stable_diffusion.json";
     converted_folder_path := "out";
     converted_database_file_path := "out/stable_diffusion.json";
     debug_mode := false;
     print_errors := false |}.

(** A record with no "name" followed by a well-formed one. *)
Definition database_missing_name : list (string * json) :=
  [("model c", JObj [("config", JObj files_first)]);
   ("model a", legacy_record "model a" [] (JObj files_first))].

(** The showcase listing of the demo disk. *)
Definition existing : gmap string (list string) :=
  get_existing_showcases env (glob_showcase_before env).

(** A download from civitai and a download with no URL. *)
Definition two_downloads : list (string * list config_record) :=
  [("download",
    [CfgDownload {| dl_file_name := Some "a.ckpt"; dl_file_path := Some "";
                    dl_file_url := Some "https://civitai.com/a";
                    dl_sha256sum := Some sha64; dl_known_slow_download := false |};
     CfgDownload {| dl_file_name := Some "b.ckpt"; dl_file_path := Some "";
                    dl_file_url := Some ""; dl_sha256sum := Some sha64;
                    dl_known_slow_download := false |}])].

Definition folder_b : string := "horde_model_reference/showcase/model_b".

(** The demo environment with another listing of the showcase folders found
    after the records. *)
Definition env_with_after (after : list string) : externals :=
  {| MODEL_REFERENCE_GITHUB_REPO := MODEL_REFERENCE_GITHUB_REPO env;
     get_model_reference_filename := get_model_reference_filename env;
     model_name_to_showcase_folder_name := model_name_to_showcase_folder_name env;
     parse_file_record := parse_file_record env;
     parse_download_record := parse_download_record env;
     parse_model_record := parse_model_record env;
     to_json := to_json env;
     parse_new_model_reference := parse_new_model_reference env;
     quote := quote env;
     urljoin := urljoin env;
     urlparse_netloc := urlparse_netloc env;
     joinpath := joinpath env;
     path_name := path_name env;
     glob_showcase_before := glob_showcase_before env;
     glob_folder := glob_folder env;
     glob_showcase_after := after;
     is_file := is_file env;
     is_dir := is_dir env;
     iterdir := iterdir env;
     open_for_write := open_for_write env;
     repr_counts := repr_counts env;
     repr_nat := repr_nat env |}.

(** A process in which one record is held in the record mapping. *)
Definition one_record : world :=
  {| all_model_records := [("model a", declared_record)];
     all_validation_errors_log := ∅; stdout := []; made_dirs := [];
     written_files := ∅ |}.

End Demo.

(** ** Reading a config block

    What the descriptors of a raw config are once pydantic has parsed them,
    to state what the iterator does with them. *)
Section ConfigBlock.

Variable X : externals.

(** The file descriptor a raw entry of "files" stands for. *)
Definition parsed_file (j : json) : option Legacy_Config_FileRecord :=
  match j with
  | JObj kw =>
      match parse_file_record X kw with
      | inr f => match fr_path f with Some _ => Some f | None => None end
      | inl _ => None
      end
  | _ => None
  end.

(** The download descriptor a raw entry of "download" stands for. *)
Definition parsed_download (j : json) : option Legacy_Config_DownloadRecord :=
  match j with
  | JObj kw =>
      match parse_download_record X kw with
      | inr d => Some d
      | inl _ => None
      end
  | _ => None
  end.

(** Every download descriptor's file name is the path of a file descriptor
    that is not a YAML one. *)
Definition matching_file_descriptors (frs : list Legacy_Config_FileRecord)
    (drs : list Legacy_Config_DownloadRecord) : Prop :=
  Forall (fun dr => exists fr p,
            In fr frs /\ fr_path fr = Some p /\ dl_file_name dr = Some p
            /\ str_contains ".yaml" p = false) drs.

(** [fr] is the last descriptor of [frs] whose path is [p]. *)
Definition last_with_path (frs : list Legacy_Config_FileRecord) (p : option string)
    (fr : Legacy_Config_FileRecord) : Prop :=
  exists l1 l2,
    frs = (l1 ++ fr :: l2)%list /\ fr_path fr = p
    /\ Forall (fun f => fr_path f <> p) l2.

(** The download descriptor [d] is [dr] with the checksum of the file
    descriptor of [frs] whose path is its file name (the last one, should
    several have that path). *)
Definition carries_checksum_of (frs : list Legacy_Config_FileRecord)
    (dr d : Legacy_Config_DownloadRecord) : Prop :=
  d = set_sha256sum dr (dl_sha256sum d)
  /\ exists fr, last_with_path frs (dl_file_name dr) fr
                /\ dl_sha256sum d = fr_sha256sum fr.

(** Keys of a config other than "files" and "download". *)
Definition other_keys (l : list (string * json)) : bool :=
  forallb (fun kv => negb (String.eqb (fst kv) "files")
                     && negb (String.eqb (fst kv) "download")) l.

(** The lookup table the files loop builds from parsed descriptors. *)
Definition table_step (t : gmap string (option string)) (f : Legacy_Config_FileRecord)
    : gmap string (option string) :=
  match fr_path f with
  | Some p => if str_contains ".yaml" p then t else <[p := fr_sha256sum f]> t
  | None => t
  end.

Definition table_from (frs : list Legacy_Config_FileRecord)
    (t : gmap string (option string)) : gmap string (option string) :=
  fold_left table_step frs t.

(** A parsed download descriptor with its checksum read from the table. *)
Definition resolve (t : gmap string (option string)) (dr : Legacy_Config_DownloadRecord)
    : Legacy_Config_DownloadRecord :=
  set_sha256sum dr (default None (n ← dl_file_name dr; t !! n)).

(** The download branch of [normalize_and_convert_config_entries] alone, on
    a list of download records. *)
Definition download_only_check (model_record_key : string)
    (dl : list Legacy_Config_DownloadRecord)
    : M (counts * list (string * list config_record)) :=
  r <- for_each (check_download_record X model_record_key) dl ([], []) ;;
  ret (fst r, [("download", snd r)]).

End ConfigBlock.

(** A statement that leaves a part of the process state as it found it,
    whether it ends well or raises. *)
Definition keeps {F A} (part : world -> F) (c : M A) : Prop :=
  forall w : world, part (snd (c w)) = part w.

(** ** Notions to state what a run does to the process state *)

(** A statement that moves a part of the process state along a relation,
    whether it ends well or raises. *)
Definition moves {F A} (R : F -> F -> Prop) (part : world -> F) (c : M A) : Prop :=
  forall w : world, R (part w) (part (snd (c w))).

(** A statement that, when it raises, leaves a part of the process state as
    it found it. *)
Definition keeps_when_raising {F A} (part : world -> F) (c : M A) : Prop :=
  forall w : world,
    match c w with
    | (Raise _, w') => part w' = part w
    | (Ok _, _) => True
    end.

(** A statement that always ends well. *)
Definition never_raises {A} (c : M A) : Prop :=
  forall w : world, exists a w', c w = (Ok a, w').

(** The findings under a key, in the order they were logged. *)
Definition findings (log : gmap string (list string)) (k : string) : list string :=
  default [] (log !! k).

(** Every key of the second log has the findings of the first, in order,
    followed by what was logged since. *)
Definition log_le (l1 l2 : gmap string (list string)) : Prop :=
  forall k : string, findings l1 k `prefix_of` findings l2 k.

(** The sum of the counts of a frequency table. *)
Definition total (c : counts) : nat := sum_list (map snd c).

(** A download that has a URL to take the host from. *)
Definition has_url (d : Legacy_Config_DownloadRecord) : bool :=
  negb (is_none_or_empty (dl_file_url d)).

(** What the config checks leave of a download they passed: the same record,
    marked as a known slow download when its URL contains "civitai". *)
Definition mark_slow (d : Legacy_Config_DownloadRecord) : Legacy_Config_DownloadRecord :=
  if has_url d && str_contains "civitai" (default "" (dl_file_url d))
  then set_known_slow_download d true
  else d.

Definition mark_slow_item (i : config_record) : config_record :=
  match i with
  | CfgDownload d => CfgDownload (mark_slow d)
  | CfgFile _ => i
  end.

Definition mark_slow_entry (e : string * list config_record)
    : string * list config_record :=
  if String.eqb (fst e) "files" then e
  else if String.eqb (fst e) "download" then (fst e, map mark_slow_item (snd e))
  else e.

Definition item_has_url (i : config_record) : bool :=
  match i with
  | CfgDownload d => has_url d
  | CfgFile _ => false
  end.

(** The downloads of a config entry that have a URL. *)
Definition entry_urls (e : string * list config_record) : nat :=
  if String.eqb (fst e) "files" then 0
  else if String.eqb (fst e) "download" then length (List.filter item_has_url (snd e))
  else 0.

(** The count a frequency table holds for a key: [d.get(k, 0)]. *)
Definition count (c : counts) (k : string) : nat := default 0 (dict_get k c).

(** The host the config checks take from a download, if any. *)
Definition download_host (X : externals) (i : config_record) : option string :=
  match i with
  | CfgDownload d =>
      if has_url d then urlparse_netloc X (default "" (dl_file_url d)) else None
  | CfgFile _ => None
  end.

Definition hosted_at (X : externals) (host : string) (i : config_record) : bool :=
  match download_host X i with
  | Some h => String.eqb h host
  | None => false
  end.

(** The downloads of a config whose URL is at the given host. *)
Definition entry_hosted_at (X : externals) (host : string)
    (e : string * list config_record) : nat :=
  if String.eqb (fst e) "files" then 0
  else if String.eqb (fst e) "download"
       then length (List.filter (hosted_at X host) (snd e))
       else 0.

Definition hosted_at_count (X : externals) (host : string)
    (cfg : list (string * list config_record)) : nat :=
  sum_list (map (entry_hosted_at X host) cfg).

(** The occurrences of a string in a list. *)
Definition occurrences (x : string) (l : list string) : nat :=
  length (List.filter (String.eqb x) l).

(** A table as the increments build it: no key twice, no count of zero. *)
Definition counted (c : counts) : Prop :=
  NoDup (map fst c) /\ Forall (fun kv => 0 < snd kv) c.

(** A statement that raises from the given state. *)
Definition raises {A} (c : M A) (w : world) : Prop :=
  exists e w', c w = (Raise e, w').

(** * Properties *)

(** ** Loops and sequencing *)

Lemma rfold_app {A S} (body : S -> A -> result S) (l1 l2 : list A) (s : S) :
  rfold body (l1 ++ l2)%list s = rbind (rfold body l1 s) (rfold body l2).
Proof.
  revert s. induction l1 as [|x l1 IH]; intros s; simpl; [reflexivity|].
  destruct (body s x) as [s'|e]; simpl; [apply IH|reflexivity].
Qed.

Lemma for_each_app {A S} (body : S -> A -> M S) (l1 l2 : list A) (s : S) (w : world) :
  for_each body (l1 ++ l2)%list s w
  = (s' <- for_each body l1 s ;; for_each body l2 s') w.
Proof.
  revert s w. induction l1 as [|x l1 IH]; intros s w; simpl; [reflexivity|].
  unfold bind. destruct (body s x w) as [[s'|e] w']; [|reflexivity].
  rewrite IH. reflexivity.
Qed.

Lemma bind_ok {A B} (c : M A) (k : A -> M B) (w w' : world) (a : A) :
  c w = (Ok a, w') -> (x <- c ;; k x) w = k a w'.
Proof. intros H. unfold bind. rewrite H. reflexivity. Qed.

Lemma bind_raise {A B} (c : M A) (k : A -> M B) (w w' : world) (e : exn) :
  c w = (Raise e, w') -> (x <- c ;; k x) w = (Raise e, w').
Proof. intros H. unfold bind. rewrite H. reflexivity. Qed.

Lemma bind_ret_r {A} (c : M A) (w : world) : (x <- c ;; ret x) w = c w.
Proof. unfold bind, ret. destruct (c w) as [[a|e] w']; reflexivity. Qed.

(** What a sequence that ends well went through. *)
Lemma bind_inv_ok {A B} (c : M A) (k : A -> M B) (w w2 : world) (b : B) :
  (x <- c ;; k x) w = (Ok b, w2) ->
  exists a w1, c w = (Ok a, w1) /\ k a w1 = (Ok b, w2).
Proof.
  unfold bind. destruct (c w) as [[a|e] w1]; intros H; [eauto|discriminate].
Qed.

(** ** Strings *)

Lemma eqb_string_spec (a b : string) : reflect (a = b) (String.eqb a b).
Proof. apply String.eqb_spec. Qed.

(** ** convert_legacy_baseline *)

Lemma convert_legacy_baseline_other (b : string) :
  b <> "stable diffusion 1" -> b <> "stable diffusion 2" ->
  b <> "stable diffusion 2 512" -> convert_legacy_baseline b = b.
Proof.
  intros H1 H2 H3. unfold convert_legacy_baseline.
  destruct (eqb_string_spec b "stable diffusion 1"); [contradiction|].
  destruct (eqb_string_spec b "stable diffusion 2"); [contradiction|].
  destruct (eqb_string_spec b "stable diffusion 2 512"); [contradiction|].
  reflexivity.
Qed.

(** C5.  The three legacy baseline strings are mapped to their canonical
    identifiers, every other string is returned unchanged, and converting
    twice is the same as converting once. *)
Theorem convert_legacy_baseline_table :
  convert_legacy_baseline "stable diffusion 1" = "stable_diffusion_1"
  /\ convert_legacy_baseline "stable diffusion 2" = "stable_diffusion_2_768"
  /\ convert_legacy_baseline "stable diffusion 2 512" = "stable_diffusion_2_512"
  /\ (forall b : string,
        b <> "stable diffusion 1" -> b <> "stable diffusion 2" ->
        b <> "stable diffusion 2 512" -> convert_legacy_baseline b = b)
  /\ (forall b : string,
        convert_legacy_baseline (convert_legacy_baseline b) = convert_legacy_baseline b).
Proof.
  repeat split; try reflexivity.
  - apply convert_legacy_baseline_other.
  - intros b.
    destruct (eqb_string_spec b "stable diffusion 1") as [->|N1]; [reflexivity|].
    destruct (eqb_string_spec b "stable diffusion 2") as [->|N2]; [reflexivity|].
    destruct (eqb_string_spec b "stable diffusion 2 512") as [->|N3]; [reflexivity|].
    rewrite !(convert_legacy_baseline_other b N1 N2 N3). reflexivity.
Qed.

Lemma convert_legacy_baseline_table_witness :
  convert_legacy_baseline "stable_diffusion_xl" = "stable_diffusion_xl".
Proof.
  apply (proj1 (proj2 (proj2 (proj2 convert_legacy_baseline_table))));
    intros H; discriminate H.
Defined.

Lemma lift_inv {A} (r : result A) (w w' : world) (a : A) :
  lift r w = (Ok a, w') -> r = Ok a /\ w' = w.
Proof. unfold lift. intros H. injection H as -> ->. split; reflexivity. Qed.

Lemma dict_get_set_eq {V} (k : string) (v : V) (d : list (string * V)) :
  dict_get k (dict_set k v d) = Some v.
Proof.
  induction d as [|[k' v'] d IH]; simpl.
  - rewrite String.eqb_refl. reflexivity.
  - destruct (String.eqb k k') eqn:E; simpl; rewrite E; [reflexivity|exact IH].
Qed.

Section Iterator.

Variable X : externals.

(** ** The lookup table and the file descriptors *)

(** A file descriptor whose path contains ".yaml" leaves the locals of the
    pass as they were. *)
Lemma files_body_yaml (st : locals) (kw : list (string * json))
    (f : Legacy_Config_FileRecord) (p : string) :
  parse_file_record X kw = inr f -> fr_path f = Some p ->
  str_contains ".yaml" p = true ->
  files_body X st (JObj kw) = Ok st.
Proof.
  intros Hparse Hpath Hyaml. unfold files_body. simpl.
  rewrite Hparse, Hpath, Hyaml. reflexivity.
Qed.

(** The only keys the files loop adds or changes do not contain ".yaml". *)
Lemma files_body_table (st st' : locals) (j : json) (p : string) :
  files_body X st j = Ok st' -> str_contains ".yaml" p = true ->
  sha_lookup st' !! p = sha_lookup st !! p.
Proof.
  unfold files_body. intros H Hyaml.
  destruct (py_kwargs j) as [kw|e]; simpl in H; [|discriminate].
  destruct (parse_file_record X kw) as [e|f]; [discriminate|].
  destruct (fr_path f) as [q|]; [|discriminate].
  destruct (str_contains ".yaml" q) eqn:Hq.
  - injection H as <-. reflexivity.
  - injection H as <-. simpl. apply lookup_insert_ne. intros ->. congruence.
Qed.

Lemma files_loop_table (items : list json) (st st' : locals) (p : string) :
  rfold (files_body X) items st = Ok st' -> str_contains ".yaml" p = true ->
  sha_lookup st' !! p = sha_lookup st !! p.
Proof.
  revert st. induction items as [|j items IH]; intros st H Hyaml; simpl in H.
  - injection H as <-. reflexivity.
  - destruct (files_body X st j) as [st1|e] eqn:E; simpl in H; [|discriminate].
    rewrite (IH _ H Hyaml). exact (files_body_table _ _ _ _ E Hyaml).
Qed.

(** ** What the iterator yields *)

Lemma normalize_record_inv (self : converter) (k : string) (contents : json)
    (w w' : world) (r : Legacy_StableDiffusion_ModelRecord) :
  normalize_record X self k contents w = (Ok r, w') ->
  exists m r0 dl,
    contents = JObj m
    /\ parse_model_record X (dict_remove "config" m) = inr r0
    /\ r = set_config r0 [("download", map CfgDownload dl)]
    /\ dict_get k (all_model_records w') = Some r.
Proof.
  unfold normalize_record. intros H.
  apply bind_inv_ok in H as (cfg & w1 & _ & H).
  apply bind_inv_ok in H as (n & w2 & _ & H).
  apply bind_inv_ok in H as (u & w3 & _ & H).
  apply bind_inv_ok in H as (entries & w4 & _ & H).
  apply bind_inv_ok in H as (st & w5 & _ & H).
  apply bind_inv_ok in H as (kw & w6 & Hkw & H).
  apply bind_inv_ok in H as (rec & w7 & Hrec & H).
  apply bind_inv_ok in H as (u' & w8 & Hstore & H).
  unfold ret in H. injection H as -> ->.
  apply lift_inv in Hkw as [Hkw _]. apply lift_inv in Hrec as [Hrec _].
  destruct contents; try discriminate Hkw. simpl in Hkw. injection Hkw as ->.
  unfold modelrecord_type in Hrec.
  destruct (parse_model_record X (dict_remove "config" kw)) as [e|r0] eqn:Hparse;
    [discriminate|].
  injection Hrec as <-.
  exists kw, r0, (new_record_config_download_list st).
  repeat split; [exact Hparse|].
  unfold store_record in Hstore. injection Hstore as _ <-. simpl.
  apply dict_get_set_eq.
Qed.

Lemma iterate_step_inv (self : converter) (k : string) (contents : json)
    (w w' : world) (r : Legacy_StableDiffusion_ModelRecord) :
  iterate_step X self k contents w = (Ok (Some r), w') ->
  normalize_record X self k contents w = (Ok r, w').
Proof.
  unfold iterate_step, try_except_ValidationError. unfold bind at 1.
  destruct (normalize_record X self k contents w) as [[r1|e] w1].
  - unfold ret. intros H. injection H as -> ->. reflexivity.
  - destruct e; try discriminate.
    intros H. apply bind_inv_ok in H as (u & w2 & _ & H). discriminate H.
Qed.

(** C6.  A file descriptor whose path contains ".yaml" is skipped: the pass
    over it leaves the lookup table and the file list as they were, the files
    loop ends with the same table with or without it, no descriptor gives the
    table an entry under its path, and no file descriptor is in the config of
    a record the iterator builds. *)
Theorem yaml_file_descriptor_is_skipped (kw : list (string * json))
    (f : Legacy_Config_FileRecord) (p : string) :
  parse_file_record X kw = inr f -> fr_path f = Some p ->
  str_contains ".yaml" p = true ->
  (forall st : locals, files_body X st (JObj kw) = Ok st)
  /\ (forall (before after : list json) (st : locals),
        rfold (files_body X) (before ++ JObj kw :: after)%list st
        = rfold (files_body X) (before ++ after)%list st)
  /\ (forall (items : list json) (st st' : locals),
        rfold (files_body X) items st = Ok st' ->
        sha_lookup st' !! p = sha_lookup st !! p)
  /\ (forall (self : converter) (k : string) (contents : json) (w w' : world)
        (r : Legacy_StableDiffusion_ModelRecord),
        normalize_record X self k contents w = (Ok r, w') ->
        forall (key : string) (items : list config_record) (f' : Legacy_Config_FileRecord),
          In (key, items) (config r) -> ~ In (CfgFile f') items).
Proof.
  intros Hparse Hpath Hyaml. repeat split.
  - intros st. exact (files_body_yaml st kw f p Hparse Hpath Hyaml).
  - intros before after st. rewrite !rfold_app.
    destruct (rfold (files_body X) before st) as [st1|e]; simpl; [|reflexivity].
    rewrite (files_body_yaml st1 kw f p Hparse Hpath Hyaml). reflexivity.
  - intros items st st' H. exact (files_loop_table items st st' p H Hyaml).
  - intros self k contents w w' r H key items f' Hin Hf.
    apply normalize_record_inv in H as (m & r0 & dl & _ & _ & -> & _).
    simpl in Hin. destruct Hin as [Hin|[]]. injection Hin as _ <-.
    apply in_map_iff in Hf as (d & Hd & _). discriminate Hd.
Qed.

(** ** A config that lists its files before its downloads *)

Lemma table_from_app (l1 l2 : list Legacy_Config_FileRecord)
    (t : gmap string (option string)) :
  table_from (l1 ++ l2)%list t = table_from l2 (table_from l1 t).
Proof. unfold table_from. apply fold_left_app. Qed.

(** The table holds, under a path that is not a YAML one, the checksum of the
    last file descriptor with that path. *)
Lemma table_from_lookup (frs : list Legacy_Config_FileRecord)
    (t : gmap string (option string)) (p : string) :
  str_contains ".yaml" p = false ->
  (exists fr, In fr frs /\ fr_path fr = Some p) ->
  exists fr, last_with_path frs (Some p) fr
             /\ table_from frs t !! p = Some (fr_sha256sum fr).
Proof.
  intros Hp. induction frs as [|f frs IH] using rev_ind; intros (fr & Hin & Hfr).
  - destruct Hin.
  - rewrite table_from_app. simpl. unfold table_step.
    destruct (decide (fr_path f = Some p)) as [Hf|Hf].
    + rewrite Hf, Hp. exists f. split; [|apply lookup_insert_eq].
      exists frs, []. repeat split; [exact Hf|constructor].
    + assert (Hin' : In fr frs).
      { apply in_app_or in Hin as [Hin|[<-|[]]]; [exact Hin|contradiction]. }
      destruct IH as (fr' & (l1 & l2 & Hfrs & Hfr' & Hl2) & Hlook); [eauto|].
      exists fr'. split.
      * exists l1, (l2 ++ [f])%list. split; [rewrite Hfrs, <- app_assoc; reflexivity|].
        split; [exact Hfr'|]. apply Forall_app. split; [exact Hl2|].
        constructor; [exact Hf|constructor].
      * destruct (fr_path f) as [q|]; [|exact Hlook].
        destruct (str_contains ".yaml" q); [exact Hlook|].
        rewrite lookup_insert_ne; [exact Hlook|congruence].
Qed.

Lemma files_loop_ok (files : list json) (frs : list Legacy_Config_FileRecord)
    (st : locals) :
  mapM (parsed_file X) files = Some frs ->
  exists fl,
    rfold (files_body X) files st
    = Ok {| sha_lookup := table_from frs (sha_lookup st);
            new_record_config_files_list := fl;
            new_record_config_download_list := new_record_config_download_list st |}.
Proof.
  intros H. apply mapM_Some in H. revert st.
  induction H as [|j f files frs Hj _ IH]; intros st.
  - exists (new_record_config_files_list st). destruct st; reflexivity.
  - simpl. unfold parsed_file in Hj. destruct j; try discriminate Hj.
    unfold files_body at 1. simpl.
    destruct (parse_file_record X m) as [e|f0]; [discriminate|].
    destruct (fr_path f0) as [q|] eqn:Hq; [|discriminate]. injection Hj as ->.
    unfold table_step. rewrite Hq.
    destruct (str_contains ".yaml" q); simpl; [apply IH|].
    match goal with
    | |- context [rfold _ _ ?s] => destruct (IH s) as [fl Hfl]
    end.
    exists fl. exact Hfl.
Qed.

Lemma download_loop_ok (downloads : list json)
    (drs : list Legacy_Config_DownloadRecord) (st : locals) :
  mapM (parsed_download X) downloads = Some drs ->
  Forall (fun dr => exists n, dl_file_name dr = Some n /\ is_Some (sha_lookup st !! n)) drs ->
  rfold (download_body X) downloads st
  = Ok {| sha_lookup := sha_lookup st;
          new_record_config_files_list := new_record_config_files_list st;
          new_record_config_download_list :=
            (new_record_config_download_list st ++ map (resolve (sha_lookup st)) drs)%list |}.
Proof.
  intros H. apply mapM_Some in H. revert st.
  induction H as [|j d downloads drs Hj _ IH]; intros st Hall.
  - simpl. rewrite app_nil_r. destruct st; reflexivity.
  - apply Forall_cons_1 in Hall as [(n & Hn & [s Hs]) Hall]. simpl.
    unfold parsed_download in Hj. destruct j; try discriminate Hj.
    unfold download_body at 1. simpl.
    destruct (parse_download_record X m) as [e|d0]; [discriminate|].
    injection Hj as ->. rewrite Hn. simpl. rewrite Hs. simpl.
    rewrite IH; simpl; [|exact Hall].
    unfold resolve at 2. rewrite Hn. simpl. rewrite Hs. simpl.
    rewrite <- app_assoc. reflexivity.
Qed.

Lemma other_keys_loop (cfg : json) (l : list (string * json)) (st : locals) :
  other_keys l = true ->
  rfold (config_entry_body X cfg) (map (fun kv => JStr (fst kv)) l) st = Ok st.
Proof.
  induction l as [|[k v] l IH]; intros H; simpl; [reflexivity|].
  simpl in H. apply andb_prop in H as [Hk Hl]. apply andb_prop in Hk as [Hf Hd].
  unfold config_entry_body at 1. simpl.
  apply negb_true_iff in Hf, Hd. rewrite Hf, Hd. simpl. exact (IH Hl).
Qed.

Lemma dict_get_other_keys (k : string) (pre rest : list (string * json)) :
  (k = "files" \/ k = "download") -> other_keys pre = true ->
  dict_get k (pre ++ rest)%list = dict_get k rest.
Proof.
  intros Hk. induction pre as [|[k' v'] pre IH]; intros H; simpl; [reflexivity|].
  simpl in H. apply andb_prop in H as [Hk' Hl]. apply andb_prop in Hk' as [Hf Hd].
  apply negb_true_iff in Hf, Hd.
  assert (String.eqb k k' = false) as ->.
  { rewrite String.eqb_sym. destruct Hk as [->| ->]; assumption. }
  exact (IH Hl).
Qed.

Lemma matching_lookup (frs : list Legacy_Config_FileRecord)
    (drs : list Legacy_Config_DownloadRecord) (t : gmap string (option string)) :
  matching_file_descriptors frs drs ->
  Forall (fun dr => exists fr n,
            last_with_path frs (Some n) fr /\ dl_file_name dr = Some n
            /\ table_from frs t !! n = Some (fr_sha256sum fr)) drs.
Proof.
  unfold matching_file_descriptors. intros H.
  eapply Forall_impl; [exact H|]. simpl.
  intros dr (fr & p & Hin & Hfr & Hdr & Hp).
  destruct (table_from_lookup frs t p Hp) as (fr' & Hlast & Hlook); [eauto|].
  exists fr', p. repeat split; assumption.
Qed.

Lemma config_loop_ok (cfg pre mid post : list (string * json)) (files downloads : list json)
    (frs : list Legacy_Config_FileRecord) (drs : list Legacy_Config_DownloadRecord) :
  cfg = (pre ++ ("files", JArr files) :: mid ++ ("download", JArr downloads) :: post)%list ->
  other_keys pre = true -> other_keys mid = true -> other_keys post = true ->
  mapM (parsed_file X) files = Some frs ->
  mapM (parsed_download X) downloads = Some drs ->
  matching_file_descriptors frs drs ->
  exists fl,
    rfold (config_entry_body X (JObj cfg)) (map (fun kv => JStr (fst kv)) cfg) no_locals
    = Ok {| sha_lookup := table_from frs ∅;
            new_record_config_files_list := fl;
            new_record_config_download_list := map (resolve (table_from frs ∅)) drs |}.
Proof.
  intros Hcfg Hpre Hmid Hpost Hfiles Hdownloads Hmatch.
  destruct (files_loop_ok files frs no_locals Hfiles) as [fl Hfl]. exists fl.
  assert (Hgetf : dict_get "files" cfg = Some (JArr files)).
  { rewrite Hcfg, (dict_get_other_keys "files" pre _ (or_introl eq_refl) Hpre).
    reflexivity. }
  assert (Hgetd : dict_get "download" cfg = Some (JArr downloads)).
  { rewrite Hcfg, (dict_get_other_keys "download" pre _ (or_intror eq_refl) Hpre).
    simpl. rewrite (dict_get_other_keys "download" mid _ (or_intror eq_refl) Hmid).
    reflexivity. }
  simpl in Hfl.
  rewrite Hcfg at 2. rewrite map_app, rfold_app, (other_keys_loop _ pre _ Hpre).
  simpl. unfold config_entry_body at 1. simpl. rewrite Hgetf. simpl. rewrite Hfl. simpl.
  rewrite map_app, rfold_app, (other_keys_loop _ mid _ Hmid).
  simpl. unfold config_entry_body at 1. simpl. rewrite Hgetd. simpl.
  rewrite (download_loop_ok downloads drs _ Hdownloads).
  - simpl. apply other_keys_loop. exact Hpost.
  - simpl. eapply Forall_impl; [exact (matching_lookup frs drs ∅ Hmatch)|]. simpl.
    intros dr (fr & n & _ & Hn & Hlook). exists n. split; [exact Hn|].
    rewrite Hlook. eauto.
Qed.

Lemma resolved_carry_checksums (frs : list Legacy_Config_FileRecord)
    (drs : list Legacy_Config_DownloadRecord) :
  matching_file_descriptors frs drs ->
  Forall2 (carries_checksum_of frs) drs (map (resolve (table_from frs ∅)) drs).
Proof.
  intros Hmatch. apply Forall2_fmap_r, Forall_Forall2_diag.
  eapply Forall_impl; [exact (matching_lookup frs drs ∅ Hmatch)|]. simpl.
  intros dr (fr & n & Hlast & Hn & Hlook). split; [reflexivity|].
  exists fr. split; [rewrite Hn; exact Hlast|].
  unfold resolve. simpl. rewrite Hn. simpl. rewrite Hlook. reflexivity.
Qed.

Lemma add_validation_error_to_log_ok (self : converter) (k e : string) (w : world) :
  exists w', add_validation_error_to_log self k e w = (Ok tt, w').
Proof.
  unfold add_validation_error_to_log, bind, when, print, ret.
  destruct (print_errors self); eauto.
Qed.

(** X19.  When the config of a legacy record lists "files"
    before "download", its descriptors parse, every download descriptor's file
    name is the path of a non-YAML file descriptor and the typed record can be
    built, the iterator yields a record whose config has the one key
    "download", under which every download descriptor carries the checksum of
    the file descriptor whose path is its file name (the last one listed,
    should several have that path); that record is the one held in
    [all_model_records]. *)
Theorem files_then_download_checksums (self : converter) (k : string)
    (m cfg pre mid post : list (string * json)) (files downloads : list json)
    (frs : list Legacy_Config_FileRecord) (drs : list Legacy_Config_DownloadRecord)
    (r0 : Legacy_StableDiffusion_ModelRecord) (w : world) :
  dict_get "config" m = Some (JObj cfg) ->
  cfg = (pre ++ ("files", JArr files) :: mid ++ ("download", JArr downloads) :: post)%list ->
  other_keys pre = true -> other_keys mid = true -> other_keys post = true ->
  mapM (parsed_file X) files = Some frs ->
  mapM (parsed_download X) downloads = Some drs ->
  matching_file_descriptors frs drs ->
  parse_model_record X (dict_remove "config" m) = inr r0 ->
  exists (dls : list Legacy_Config_DownloadRecord) (w' : world),
    let r := set_config r0 [("download", map CfgDownload dls)] in
    iterate_step X self k (JObj m) w = (Ok (Some r), w')
    /\ dict_get k (all_model_records w') = Some r
    /\ config r = [("download", map CfgDownload dls)]
    /\ Forall2 (carries_checksum_of frs) drs dls.
Proof.
  intros Hm Hcfg Hpre Hmid Hpost Hfiles Hdownloads Hmatch Hr0.
  destruct (config_loop_ok cfg pre mid post files downloads frs drs
              Hcfg Hpre Hmid Hpost Hfiles Hdownloads Hmatch) as [fl Hloop].
  exists (map (resolve (table_from frs ∅)) drs).
  assert (Hlog : exists w1,
             when (2 <? length cfg)%nat
               (add_validation_error_to_log self k (k +:+ " has more than 2 config entries.")) w
             = (Ok tt, w1)).
  { destruct (2 <? length cfg)%nat; simpl; [apply add_validation_error_to_log_ok|].
    exists w. reflexivity. }
  destruct Hlog as [w1 Hlog].
  assert (Hnorm : normalize_record X self k (JObj m) w
                  = (Ok (set_config r0
                           [("download",
                             map CfgDownload (map (resolve (table_from frs ∅)) drs))]),
                     {| all_model_records :=
                          dict_set k
                            (set_config r0
                               [("download",
                                 map CfgDownload (map (resolve (table_from frs ∅)) drs))])
                            (all_model_records w1);
                        all_validation_errors_log := all_validation_errors_log w1;
                        stdout := stdout w1;
                        made_dirs := made_dirs w1;
                        written_files := written_files w1 |})).
  { unfold normalize_record. simpl py_getitem. rewrite Hm.
    unfold bind at 1. unfold lift at 1. unfold bind at 1. unfold lift at 1. simpl py_len.
    unfold bind at 1. rewrite Hlog.
    unfold bind at 1. unfold lift at 1. simpl py_iter.
    unfold bind at 1. unfold lift at 1. rewrite Hloop.
    unfold bind at 1. unfold lift at 1. simpl py_kwargs.
    unfold bind at 1. unfold lift at 1. unfold modelrecord_type. rewrite Hr0.
    simpl. reflexivity. }
  eexists. simpl. split; [|split; [|split]].
  - unfold iterate_step, try_except_ValidationError, bind. rewrite Hnorm. reflexivity.
  - simpl. apply dict_get_set_eq.
  - reflexivity.
  - apply resolved_carry_checksums. exact Hmatch.
Qed.

End Iterator.

(** ** Parts of the state a statement leaves alone *)

Section Frames.

Context {F : Type} (part : world -> F).

Lemma keeps_ret {A} (a : A) : keeps part (ret a).
Proof. intros w. reflexivity. Qed.

Lemma keeps_raise {A} (e : exn) : keeps part (@raise A e).
Proof. intros w. reflexivity. Qed.

Lemma keeps_lift {A} (r : result A) : keeps part (lift r).
Proof. intros w. reflexivity. Qed.

Lemma keeps_get_world : keeps part get_world.
Proof. intros w. reflexivity. Qed.

Lemma keeps_bind {A B} (c : M A) (k : A -> M B) :
  keeps part c -> (forall a, keeps part (k a)) -> keeps part (x <- c ;; k x).
Proof.
  intros Hc Hk w. unfold bind. specialize (Hc w).
  destruct (c w) as [[a|e] w1]; simpl in *; [|exact Hc].
  rewrite (Hk a w1). exact Hc.
Qed.

Lemma keeps_when (b : bool) (c : M unit) : keeps part c -> keeps part (when b c).
Proof. intros Hc. destruct b; [exact Hc|apply keeps_ret]. Qed.

Lemma keeps_for_each {A S} (body : S -> A -> M S) (l : list A) (s : S) :
  (forall s x, keeps part (body s x)) -> keeps part (for_each body l s).
Proof.
  intros Hbody. revert s. induction l as [|x l IH]; intros s; simpl.
  - apply keeps_ret.
  - apply keeps_bind; [apply Hbody|exact IH].
Qed.

Lemma keeps_try_except_ValidationError {A} (body : M A) (handler : string -> M A) :
  keeps part body -> (forall e, keeps part (handler e)) ->
  keeps part (try_except_ValidationError body handler).
Proof.
  intros Hb Hh w. unfold try_except_ValidationError. specialize (Hb w).
  destruct (body w) as [[a|e] w1]; simpl in *; [exact Hb|].
  destruct e; simpl; try exact Hb. rewrite (Hh msg w1). exact Hb.
Qed.

Lemma keeps_try_except_reraise {A} (body : M A) (handler : M unit) :
  keeps part body -> keeps part handler -> keeps part (try_except_reraise body handler).
Proof.
  intros Hb Hh w. unfold try_except_reraise. specialize (Hb w).
  destruct (body w) as [[a|e] w1]; simpl in *; [exact Hb|].
  rewrite (keeps_bind handler (fun _ => raise e) Hh (fun _ => keeps_raise e) w1).
  exact Hb.
Qed.

End Frames.

Lemma keeps_written_print (line : string) : keeps written_files (print line).
Proof. intros w. reflexivity. Qed.

Lemma keeps_log_print (line : string) : keeps all_validation_errors_log (print line).
Proof. intros w. reflexivity. Qed.

Lemma keeps_written_store (k : string) (r : Legacy_StableDiffusion_ModelRecord) :
  keeps written_files (store_record k r).
Proof. intros w. reflexivity. Qed.

Lemma keeps_written_mkdir (p : string) : keeps written_files (mkdir p).
Proof. intros w. reflexivity. Qed.

Lemma keeps_written_log (self : converter) (k e : string) :
  keeps written_files (add_validation_error_to_log self k e).
Proof.
  unfold add_validation_error_to_log. apply keeps_bind.
  - intros w. reflexivity.
  - intros _. apply keeps_when, keeps_written_print.
Qed.

Create HintDb keeps.
#[export] Hint Resolve keeps_written_print keeps_log_print keeps_written_store
  keeps_written_mkdir keeps_written_log : keeps.

(** Splits a statement along its sequencing, loops and branches and closes
    the primitive statements with the hints. *)
Ltac keeps_step :=
  lazymatch goal with
  | |- keeps _ (bind _ _) => apply keeps_bind; [|intros]
  | |- keeps _ (ret _) => apply keeps_ret
  | |- keeps _ (raise _) => apply keeps_raise
  | |- keeps _ (lift _) => apply keeps_lift
  | |- keeps _ get_world => apply keeps_get_world
  | |- keeps _ (when _ _) => apply keeps_when
  | |- keeps _ (for_each _ _ _) => apply keeps_for_each; intros
  | |- keeps _ (try_except_ValidationError _ _) =>
      apply keeps_try_except_ValidationError; [|intros]
  | |- keeps _ (try_except_reraise _ _) => apply keeps_try_except_reraise
  | |- keeps _ (if ?b then _ else _) => destruct b
  | |- keeps _ (match ?x with _ => _ end) => destruct x
  | |- keeps _ _ => solve [auto with keeps]
  end.

Ltac keeps_all := repeat keeps_step.

(** ** The config-entry checks *)

Section Checker.

Variable X : externals.

Lemma check_file_keeps_log (k : string) (f : config_record) :
  keeps all_validation_errors_log (check_file k f).
Proof. unfold check_file. keeps_all. Qed.

Lemma check_download_record_keeps_log (k : string) (st : counts * list config_record)
    (d : Legacy_Config_DownloadRecord) :
  keeps all_validation_errors_log (check_download_record X k st d).
Proof. unfold check_download_record. keeps_all. Qed.

(** The config-entry checks only print: they leave the findings log as it
    was. *)
Lemma config_entries_keep_log (k : string) (cfg : list (string * list config_record)) :
  keeps all_validation_errors_log (normalize_and_convert_config_entries X k cfg).
Proof.
  unfold normalize_and_convert_config_entries. apply keeps_for_each.
  intros st [key items]. unfold check_config_entry.
  destruct (String.eqb key "files"); [|destruct (String.eqb key "download")].
  - keeps_all; try apply check_file_keeps_log.
  - keeps_all; try (unfold check_download; keeps_all);
      try apply check_download_record_keeps_log.
  - keeps_all.
Qed.

Lemma check_download_record_keeps_written (k : string) (st : counts * list config_record)
    (d : Legacy_Config_DownloadRecord) :
  keeps written_files (check_download_record X k st d).
Proof. unfold check_download_record. keeps_all. Qed.

Lemma config_entries_keep_written (k : string) (cfg : list (string * list config_record)) :
  keeps written_files (normalize_and_convert_config_entries X k cfg).
Proof.
  unfold normalize_and_convert_config_entries. apply keeps_for_each.
  intros st [key items]. unfold check_config_entry.
  destruct (String.eqb key "files"); [|destruct (String.eqb key "download")].
  - keeps_all; try (unfold check_file; keeps_all).
  - keeps_all; try (unfold check_download; keeps_all);
      try apply check_download_record_keeps_written.
  - keeps_all.
Qed.

(** Past the [isinstance] guard a download either passes or raises what
    [urlparse] raised. *)
Lemma check_download_record_cases (k : string) (st : counts * list config_record)
    (d : Legacy_Config_DownloadRecord) (w : world) :
  exists w', (exists st', check_download_record X k st d w = (Ok st', w'))
             \/ check_download_record X k st d w = (Raise (OtherError "urlparse"), w').
Proof.
  unfold check_download_record, bind, when, print, ret, try_except_reraise, raise.
  destruct (is_none_or_empty (dl_file_name d));
    destruct (dl_file_path d) as [fp|]; try destruct (negb (String.eqb fp ""));
    destruct (is_none_or_empty (dl_file_url d));
    try destruct (urlparse_netloc X (default "" (dl_file_url d)));
    simpl; eauto.
Qed.

Lemma download_loop_no_TypeError (k : string) (dl : list Legacy_Config_DownloadRecord)
    (st : counts * list config_record) (w : world) (msg : string) :
  fst (for_each (check_download_record X k) dl st w) <> Raise (TypeError msg).
Proof.
  revert st w. induction dl as [|d dl IH]; intros st w; simpl; [discriminate|].
  unfold bind.
  destruct (check_download_record_cases k st d w) as (w' & [[st' H]|H]); rewrite H.
  - apply IH.
  - simpl. discriminate.
Qed.

Lemma download_loop_typed (k : string) (dl : list Legacy_Config_DownloadRecord)
    (st : counts * list config_record) (w : world) :
  for_each (check_download X k) (map CfgDownload dl) st w
  = for_each (check_download_record X k) dl st w.
Proof.
  revert st w. induction dl as [|d dl IH]; intros st w; simpl; [reflexivity|].
  unfold bind. simpl.
  destruct (check_download_record X k st d w) as [[st'|e] w']; [apply IH|reflexivity].
Qed.

(** On a config with the one key "download" over download records, the
    checks are the download branch alone. *)
Lemma config_entries_download_only (k : string) (dl : list Legacy_Config_DownloadRecord)
    (w : world) :
  normalize_and_convert_config_entries X k [("download", map CfgDownload dl)] w
  = download_only_check X k dl w.
Proof.
  unfold normalize_and_convert_config_entries, download_only_check. simpl.
  unfold check_config_entry. simpl. rewrite bind_ret_r.
  unfold bind. rewrite download_loop_typed. reflexivity.
Qed.

Lemma reconcile_showcases_config (self : converter)
    (existing : gmap string (list string)) (k expected : string)
    (r r' : Legacy_StableDiffusion_ModelRecord) (w w' : world) :
  reconcile_showcases X self existing k expected r w = (Ok r', w') ->
  config r' = config r.
Proof.
  unfold reconcile_showcases.
  destruct (showcases r) as [[|s l]|].
  - unfold ret. intros H. injection H as <- _. reflexivity.
  - intros H.
    apply bind_inv_ok in H as (u1 & w1 & _ & H).
    apply bind_inv_ok in H as (u2 & w2 & _ & H).
    apply bind_inv_ok in H as (u3 & w3 & _ & H).
    destruct (existing !! expected) as [files|]; [|discriminate H].
    apply bind_inv_ok in H as (u4 & w4 & _ & H).
    unfold ret in H. injection H as <- _. reflexivity.
  - unfold ret. intros H. injection H as <- _. reflexivity.
Qed.

(** C10.  A record the iterator yields has a config with the one key
    "download" over download records; the orchestrator's showcase handling
    leaves that config as it is; and on it the config-entry checks are the
    download branch alone, past its [isinstance] guard: the "files" branch is
    not entered and no [TypeError] is raised. *)
Theorem yielded_config_is_download_only (self : converter) (k : string) (contents : json)
    (w w' : world) (r : Legacy_StableDiffusion_ModelRecord) :
  iterate_step X self k contents w = (Ok (Some r), w') ->
  exists dl : list Legacy_Config_DownloadRecord,
    config r = [("download", map CfgDownload dl)]
    /\ map fst (config r) = ["download"]
    /\ (forall (existing : gmap string (list string)) (expected b : string)
          (w1 w2 : world) (r2 : Legacy_StableDiffusion_ModelRecord),
          reconcile_showcases X self existing k expected (set_baseline r b) w1 = (Ok r2, w2) ->
          config r2 = config r)
    /\ (forall w1 : world,
          normalize_and_convert_config_entries X k (config r) w1
          = download_only_check X k dl w1)
    /\ (forall (w1 : world) (msg : string),
          fst (normalize_and_convert_config_entries X k (config r) w1)
          <> Raise (TypeError msg)).
Proof.
  intros H. apply iterate_step_inv, normalize_record_inv in H
    as (m & r0 & dl & _ & _ & -> & _).
  exists dl. simpl. repeat split.
  - intros existing expected b w1 w2 r2 H.
    apply reconcile_showcases_config in H. exact H.
  - intros w1. apply config_entries_download_only.
  - intros w1 msg. rewrite config_entries_download_only.
    unfold download_only_check, bind.
    pose proof (download_loop_no_TypeError k dl ([], []) w1 msg) as Hno.
    destruct (for_each (check_download_record X k) dl ([], []) w1) as [[st'|e] w2];
      simpl in *; [discriminate|].
    intros Heq. apply Hno. injection Heq as ->. reflexivity.
Qed.

End Checker.

(** ** The orchestrator *)

Lemma raises_bind {A B} (c : M A) (k : A -> M B) (w : world) :
  (forall a w1, c w = (Ok a, w1) -> raises (k a) w1) -> raises (x <- c ;; k x) w.
Proof.
  intros H. unfold raises, bind. destruct (c w) as [[a|e] w1]; [|eauto].
  exact (H a w1 eq_refl).
Qed.

Lemma for_each_raises {A S} (body : S -> A -> M S) (l : list A) (x : A) :
  In x l -> (forall s w, raises (body s x) w) ->
  forall s w, raises (for_each body l s) w.
Proof.
  intros Hin Hx. induction l as [|y l IH]; [destruct Hin|].
  intros s w. simpl. apply raises_bind. intros s' w1 Hy.
  destruct Hin as [->|Hin].
  - destruct (Hx s w) as (e & w' & He). congruence.
  - apply IH. exact Hin.
Qed.

Section Orchestrator.

Variable X : externals.

Lemma iterate_step_keeps_written (self : converter) (k : string) (contents : json) :
  keeps written_files (iterate_step X self k contents).
Proof. unfold iterate_step, normalize_record. keeps_all. Qed.

Lemma sanity_checks_keep_written (self : converter) (k : string)
    (r : Legacy_StableDiffusion_ModelRecord) :
  keeps written_files (generic_record_sanity_checks self k r).
Proof. unfold generic_record_sanity_checks. keeps_all. Qed.

Lemma reconcile_showcases_keeps_written (self : converter)
    (existing : gmap string (list string)) (k expected : string)
    (r : Legacy_StableDiffusion_ModelRecord) :
  keeps written_files (reconcile_showcases X self existing k expected r).
Proof. unfold reconcile_showcases. keeps_all. Qed.

#[local] Hint Resolve sanity_checks_keep_written reconcile_showcases_keeps_written
  config_entries_keep_written : keeps.

Lemma process_record_keeps_written (self : converter)
    (existing : gmap string (list string)) (t : tables) (k : string)
    (r : Legacy_StableDiffusion_ModelRecord) :
  keeps written_files (process_record X self existing t k r).
Proof.
  unfold process_record, create_showcase_folder.
  keeps_all.
Qed.

Lemma stream_record_keeps_written (self : converter)
    (existing : gmap string (list string)) (t : tables) (item : string * json) :
  keeps written_files (stream_record X self existing t item).
Proof.
  unfold stream_record. apply keeps_bind; [apply iterate_step_keeps_written|].
  intros [r|]; [apply process_record_keeps_written|apply keeps_ret].
Qed.

Lemma check_final_folders_keeps_written (self : converter) :
  keeps written_files (check_final_folders X self).
Proof. unfold check_final_folders. keeps_all. Qed.

Lemma print_report_keeps_written (t : tables) (names : list string) :
  keeps written_files (print_report X t names).
Proof. unfold print_report. keeps_all. Qed.

(** Nothing is written to disk before the final validation. *)
Lemma convert_and_report_keeps_written (self : converter) (data : list (string * json)) :
  keeps written_files (convert_and_report X self data).
Proof.
  unfold convert_and_report. apply keeps_bind.
  - apply keeps_for_each. intros t item. apply stream_record_keeps_written.
  - intros t. apply keeps_bind; [apply check_final_folders_keeps_written|].
    intros names. apply keeps_bind; [apply print_report_keeps_written|].
    intros _. apply keeps_ret.
Qed.

(** C4.  A run that raises before the final validation writes nothing.  A run
    that reaches it with a serialized output the target schema refuses prints
    the validation error, raises it and writes nothing.  Otherwise the output
    file is opened: when that raises (the converted folder does not exist),
    the run raises with it and nothing is written; when it succeeds, the run
    returns [True] and the one change to the files on disk is the serialized
    output, whole, at the converted database path. *)
Theorem output_written_only_after_validation (self : converter)
    (data : list (string * json)) (w : world) :
  match convert_and_report X self data w with
  | (Raise e, w1) =>
      normalize_and_convert X self data w = (Raise e, w1)
      /\ written_files w1 = written_files w
  | (Ok t, w1) =>
      let jsonToWrite := to_json X (make_model_reference t w1) in
      match parse_new_model_reference X jsonToWrite with
      | Some err =>
          exists w2,
            normalize_and_convert X self data w = (Raise (ValidationError err), w2)
            /\ written_files w2 = written_files w
            /\ In err (stdout w2)
      | None =>
          match open_for_write X (made_dirs w1) (converted_database_file_path self) with
          | Raise e =>
              normalize_and_convert X self data w = (Raise e, w1)
              /\ written_files w1 = written_files w
          | Ok _ =>
              exists w2,
                normalize_and_convert X self data w = (Ok true, w2)
                /\ written_files w2
                   = <[converted_database_file_path self := jsonToWrite]>
                       (written_files w)
          end
      end
  end.
Proof.
  pose proof (convert_and_report_keeps_written self data w) as Hkeep.
  unfold normalize_and_convert, bind.
  destruct (convert_and_report X self data w) as [[t|e] w1]; simpl in Hkeep.
  - unfold validate_and_write, bind, get_world. simpl.
    destruct (parse_new_model_reference X (to_json X (make_model_reference t w1)))
      as [err|].
    + eexists. split; [reflexivity|]. simpl. split; [exact Hkeep|].
      apply in_or_app. left. apply in_or_app. right. left. reflexivity.
    + unfold write_file.
      destruct (open_for_write X (made_dirs w1) (converted_database_file_path self))
        as [u|e].
      * eexists. split; [reflexivity|]. simpl. rewrite Hkeep. reflexivity.
      * split; [reflexivity|exact Hkeep].
  - split; [reflexivity|exact Hkeep].
Qed.

(** ** Download URLs *)

Lemma check_download_record_no_url (k : string) (st : counts * list config_record)
    (d : Legacy_Config_DownloadRecord) (w : world) :
  is_none_or_empty (dl_file_url d) = true ->
  exists w',
    check_download_record X k st d w = (Ok (fst st, (snd st ++ [CfgDownload d])%list), w')
    /\ In (k +:+ " has a download with no file_url.") (stdout w').
Proof.
  intros H. unfold check_download_record. rewrite H.
  unfold bind, when, print, ret.
  destruct (is_none_or_empty (dl_file_name d));
    destruct (dl_file_path d) as [fp|]; try destruct (negb (String.eqb fp ""));
    simpl; eexists; (split; [reflexivity|]); simpl;
    apply in_or_app; right; left; reflexivity.
Qed.

Lemma check_download_record_bad_url (k : string) (st : counts * list config_record)
    (d : Legacy_Config_DownloadRecord) (url : string) (w : world) :
  dl_file_url d = Some url -> url <> "" -> urlparse_netloc X url = None ->
  raises (check_download_record X k st d) w.
Proof.
  intros Hurl Hne Hparse. unfold raises, check_download_record. rewrite Hurl. simpl.
  destruct (eqb_string_spec url ""); [contradiction|]. rewrite Hparse.
  unfold bind, when, print, ret, try_except_reraise, raise.
  destruct (is_none_or_empty (dl_file_name d));
    destruct (dl_file_path d) as [fp|]; try destruct (negb (String.eqb fp ""));
    simpl; eauto.
Qed.

Lemma config_entries_bad_url (k : string) (cfg : list (string * list config_record))
    (dl : list Legacy_Config_DownloadRecord) (d : Legacy_Config_DownloadRecord)
    (url : string) (w : world) :
  cfg = [("download", map CfgDownload dl)] -> In d dl ->
  dl_file_url d = Some url -> url <> "" -> urlparse_netloc X url = None ->
  raises (normalize_and_convert_config_entries X k cfg) w.
Proof.
  intros -> Hin Hurl Hne Hparse. unfold raises.
  rewrite config_entries_download_only. unfold download_only_check.
  apply raises_bind. intros a w1 Hok.
  destruct (for_each_raises (check_download_record X k) dl d Hin
              (fun st0 w0 => check_download_record_bad_url k st0 d url w0 Hurl Hne Hparse)
              ([], []) w) as (e & w' & He).
  congruence.
Qed.

Lemma process_record_bad_url (self : converter) (existing : gmap string (list string))
    (t : tables) (k : string) (r : Legacy_StableDiffusion_ModelRecord)
    (dl : list Legacy_Config_DownloadRecord) (d : Legacy_Config_DownloadRecord)
    (url : string) (w : world) :
  config r = [("download", map CfgDownload dl)] -> In d dl ->
  dl_file_url d = Some url -> url <> "" -> urlparse_netloc X url = None ->
  raises (process_record X self existing t k r) w.
Proof.
  intros Hcfg Hin Hurl Hne Hparse. unfold process_record.
  apply raises_bind. intros _ w1 _.
  apply raises_bind. intros _ w2 _.
  apply raises_bind. intros _ w3 _.
  apply raises_bind. intros _ w4 _.
  apply raises_bind. intros r2 w5 Hr2.
  apply reconcile_showcases_config in Hr2. simpl in Hr2.
  apply raises_bind. intros _ w6 _.
  apply raises_bind. intros found w7 Hfound.
  destruct (config_entries_bad_url k (config r2) dl d url w6) as (e & w' & He);
    try assumption; congruence.
Qed.

(** C9.  A download whose URL is missing or empty is reported and passed over:
    the hosts table is left as it was and the loop goes on.  A download whose
    URL [urlparse] refuses makes the whole run raise, and the run writes no
    file. *)
Theorem download_url_missing_or_unparseable :
  (forall (k : string) (st : counts * list config_record)
     (d : Legacy_Config_DownloadRecord) (w : world),
     is_none_or_empty (dl_file_url d) = true ->
     exists w',
       check_download X k st (CfgDownload d) w
       = (Ok (fst st, (snd st ++ [CfgDownload d])%list), w')
       /\ In (k +:+ " has a download with no file_url.") (stdout w'))
  /\ (forall (self : converter) (before after : list (string * json))
        (item : string * json) (t1 : tables) (w w1 w2 : world)
        (r : Legacy_StableDiffusion_ModelRecord) (items : list config_record)
        (d : Legacy_Config_DownloadRecord) (url : string),
        for_each (stream_record X self (get_existing_showcases X (glob_showcase_before X)))
          before no_tables w = (Ok t1, w1) ->
        iterate_step X self (fst item) (snd item) w1 = (Ok (Some r), w2) ->
        In ("download", items) (config r) -> In (CfgDownload d) items ->
        dl_file_url d = Some url -> url <> "" -> urlparse_netloc X url = None ->
        exists e w',
          normalize_and_convert X self (before ++ item :: after)%list w = (Raise e, w')
          /\ written_files w' = written_files w).
Proof.
  split.
  - intros k st d w H. simpl. exact (check_download_record_no_url k st d w H).
  - intros self before after item t1 w w1 w2 r items d url
      Hbefore Hstep Hitems Hd Hurl Hne Hparse.
    pose proof Hstep as Hinv.
    apply iterate_step_inv, normalize_record_inv in Hinv
      as (m & r0 & dl & _ & _ & Hr & _).
    assert (Hcfg : config r = [("download", map CfgDownload dl)]) by (rewrite Hr; reflexivity).
    rewrite Hcfg in Hitems. destruct Hitems as [Hitems|[]]. injection Hitems as <-.
    apply in_map_iff in Hd as (d' & Hd' & Hin). injection Hd' as ->.
    assert (Hraise : raises (convert_and_report X self (before ++ item :: after)%list) w).
    { unfold convert_and_report. apply raises_bind. intros t w3 Hloop.
      rewrite for_each_app in Hloop. rewrite (bind_ok _ _ _ _ _ Hbefore) in Hloop.
      simpl in Hloop. unfold stream_record at 1 in Hloop.
      unfold bind at 1 2 in Hloop. rewrite Hstep in Hloop.
      destruct (process_record_bad_url self
                  (get_existing_showcases X (glob_showcase_before X)) t1 (fst item) r
                  dl d url w2 Hcfg Hin Hurl Hne Hparse) as (e & w' & He).
      rewrite He in Hloop. discriminate Hloop. }
    destruct Hraise as (e & w' & He). exists e, w'. split.
    + unfold normalize_and_convert. apply bind_raise. exact He.
    + pose proof (convert_and_report_keeps_written self (before ++ item :: after)%list w)
        as Hkeep.
      rewrite He in Hkeep. exact Hkeep.
Qed.

(** ** Showcases *)

Lemma reconcile_showcases_result (self : converter)
    (existing : gmap string (list string)) (k expected : string)
    (r r' : Legacy_StableDiffusion_ModelRecord) (w w' : world) :
  reconcile_showcases X self existing k expected r w = (Ok r', w') ->
  match showcases r with
  | Some (_ :: _) =>
      exists files,
        existing !! expected = Some files
        /\ showcases r' = Some (map (showcase_url X expected) files)
  | _ => showcases r' = showcases r
  end.
Proof.
  unfold reconcile_showcases.
  destruct (showcases r) as [[|s l]|] eqn:Hs.
  - unfold ret. intros H. injection H as <- _. exact Hs.
  - intros H.
    apply bind_inv_ok in H as (u1 & w1 & _ & H).
    apply bind_inv_ok in H as (u2 & w2 & _ & H).
    apply bind_inv_ok in H as (u3 & w3 & _ & H).
    destruct (existing !! expected) as [files|]; [|discriminate H].
    apply bind_inv_ok in H as (u4 & w4 & _ & H).
    unfold ret in H. injection H as <- _. exists files. split; reflexivity.
  - unfold ret. intros H. injection H as <- _. exact Hs.
Qed.

(** C3, as the code has it.  For a record that passes the loop body, the
    record held in [all_model_records] has, when the input declared at least
    one showcase, exactly the URLs built from the files listed for its
    showcase folder, whatever was declared; when the input declared none, its
    showcases are left as they were. *)
Theorem showcases_rebuilt_when_declared (self : converter)
    (existing : gmap string (list string)) (t t' : tables) (k : string)
    (r : Legacy_StableDiffusion_ModelRecord) (w w' : world) :
  process_record X self existing t k r w = (Ok t', w') ->
  exists r',
    dict_get k (all_model_records w') = Some r'
    /\ match showcases r with
       | Some (_ :: _) =>
           exists files,
             existing !! model_name_to_showcase_folder_name X k = Some files
             /\ showcases r'
                = Some (map (showcase_url X (model_name_to_showcase_folder_name X k)) files)
       | _ => showcases r' = showcases r
       end.
Proof.
  unfold process_record. intros H.
  apply bind_inv_ok in H as (u1 & w1 & _ & H).
  apply bind_inv_ok in H as (u2 & w2 & _ & H).
  apply bind_inv_ok in H as (u3 & w3 & _ & H).
  apply bind_inv_ok in H as (u4 & w4 & _ & H).
  apply bind_inv_ok in H as (r2 & w5 & Hr2 & H).
  apply bind_inv_ok in H as (u6 & w6 & _ & H).
  apply bind_inv_ok in H as (found & w7 & _ & H).
  apply bind_inv_ok in H as (u8 & w8 & Hstore & H).
  unfold ret in H. injection H as _ <-.
  unfold store_record in Hstore. injection Hstore as _ <-. simpl.
  exists (set_config r2 (snd found)). split; [apply dict_get_set_eq|].
  apply reconcile_showcases_result in Hr2. simpl in Hr2. exact Hr2.
Qed.

End Orchestrator.

(** * The converter on concrete databases *)

Section Runs.

Import Demo.

Lemma iterate_step_KeyError (X : externals) (self : converter) (k : string)
    (contents : json) (w w' : world) (missing : option string) :
  normalize_record X self k contents w = (Raise (KeyError missing), w') ->
  iterate_step X self k contents w = (Raise (KeyError missing), w').
Proof.
  intros H. unfold iterate_step, try_except_ValidationError, bind.
  rewrite H. reflexivity.
Qed.

(** C1 on the code.  The config of the first record lists "download" before
    "files"; every download descriptor's file name is the path of a non-YAML
    file descriptor.  The lookup table is still empty when the download is
    read: [sha_lookup[...]] raises [KeyError], which the iterator's
    [except ValidationError] does not catch.  No checksum is transferred and
    the run raises: the well-formed record after it is never read and no file
    is written. *)
Theorem download_listed_first_aborts_run :
  (exists frs drs,
     mapM (parsed_file env) [ckpt_file; yaml_file] = Some frs
     /\ mapM (parsed_download env) [ckpt_download] = Some drs
     /\ matching_file_descriptors frs drs)
  /\ dict_get "files" download_first = Some (JArr [ckpt_file; yaml_file])
  /\ dict_get "download" download_first = Some (JArr [ckpt_download])
  /\ iterate_step env self "model a" (legacy_record "model a" [] (JObj download_first))
       fresh_process
     = (Raise (KeyError (Some "model.ckpt")), fresh_process)
  /\ exists w',
       normalize_and_convert env self database_download_first fresh_process
       = (Raise (KeyError (Some "model.ckpt")), w')
       /\ all_model_records w' = []
       /\ all_validation_errors_log w' = ∅
       /\ written_files w' = ∅.
Proof.
  split; [|split; [|split; [|split]]]; try (vm_compute; reflexivity).
  - eexists _, _. split; [vm_compute; reflexivity|]. split; [vm_compute; reflexivity|].
    constructor; [|constructor].
    eexists _, "model.ckpt". split; [left; reflexivity|]. repeat split.
  - eexists. split; [vm_compute; reflexivity|]. repeat split.
Qed.

Lemma files_then_download_checksums_witness :
  exists (dls : list Legacy_Config_DownloadRecord) (w' : world),
    let r := set_config
               {| name := "model a"; type := "ckpt"; baseline := "stable diffusion 1";
                  style := "generalist"; description := Some "a model";
                  available := false; download_all := false; showcases := Some [];
                  tags := None; config := [] |}
               [("download", map CfgDownload dls)] in
    iterate_step env self "model a" (legacy_record "model a" [] (JObj files_first))
      fresh_process = (Ok (Some r), w')
    /\ dict_get "model a" (all_model_records w') = Some r
    /\ config r = [("download", map CfgDownload dls)]
    /\ Forall2
         (carries_checksum_of
            [ {| fr_path := Some "model.ckpt"; fr_sha256sum := Some sha64 |};
              {| fr_path := Some "v1-inference.yaml"; fr_sha256sum := Some "0" |} ])
         [ {| dl_file_name := Some "model.ckpt"; dl_file_path := Some "";
              dl_file_url := Some "https://civitai.com/x"; dl_sha256sum := None;
              dl_known_slow_download := false |} ]
         dls.
Proof.
  apply (files_then_download_checksums env self "model a"
           (legacy_fields "model a" [] (JObj files_first)) files_first [] [] []
           [ckpt_file; yaml_file] [ckpt_download]); try reflexivity.
  constructor; [|constructor].
  eexists _, "model.ckpt". split; [left; reflexivity|]. repeat split.
Defined.

(** C2 on the code.  A [KeyError] raised while a record is normalized is not
    caught by the iterator's [except ValidationError]: it leaves the iterator
    with the state as it was when raised.  The first record of this database
    has a download that names a file no file descriptor has:
    [sha_lookup[...]] raises [KeyError] and the run raises with it; nothing is
    logged under the record's key, the next record is never read and no file
    is written. *)
Theorem missing_checksum_aborts_run :
  (forall (X : externals) (self0 : converter) (k : string) (contents : json)
     (w w' : world) (missing : option string),
     normalize_record X self0 k contents w = (Raise (KeyError missing), w') ->
     iterate_step X self0 k contents w = (Raise (KeyError missing), w'))
  /\ iterate_step env self "model b" (legacy_record "model b" [] (JObj missing_file))
       fresh_process
     = (Raise (KeyError (Some "missing.ckpt")), fresh_process)
  /\ exists w',
       normalize_and_convert env self database_missing_file fresh_process
       = (Raise (KeyError (Some "missing.ckpt")), w')
       /\ all_validation_errors_log w' !! "model b" = None
       /\ dict_get "model a" (all_model_records w') = None
       /\ written_files w' = ∅.
Proof.
  split; [exact iterate_step_KeyError|].
  split; [vm_compute; reflexivity|].
  eexists. split; [vm_compute; reflexivity|]. repeat split.
Qed.

Lemma yaml_file_descriptor_is_skipped_witness :
  files_body env no_locals yaml_file = Ok no_locals
  /\ rfold (files_body env) [ckpt_file; yaml_file] no_locals
     = rfold (files_body env) [ckpt_file] no_locals.
Proof.
  pose proof (yaml_file_descriptor_is_skipped env
                [("path", JStr "v1-inference.yaml"); ("sha256sum", JStr "0")]
                {| fr_path := Some "v1-inference.yaml"; fr_sha256sum := Some "0" |}
                "v1-inference.yaml" eq_refl eq_refl eq_refl) as (H1 & H2 & _).
  split; [apply H1|apply (H2 [ckpt_file] [])].
Defined.

Lemma yielded_config_is_download_only_witness :
  exists r w',
    iterate_step env self "model a" (legacy_record "model a" [] (JObj files_first))
      fresh_process = (Ok (Some r), w')
    /\ exists dl : list Legacy_Config_DownloadRecord,
         config r = [("download", map CfgDownload dl)]
         /\ map fst (config r) = ["download"]
         /\ (forall w1 : world,
               normalize_and_convert_config_entries env "model a" (config r) w1
               = download_only_check env "model a" dl w1).
Proof.
  eexists _, _. split; [vm_compute; reflexivity|].
  destruct (yielded_config_is_download_only env self "model a"
              (legacy_record "model a" [] (JObj files_first)) fresh_process _ _ eq_refl)
    as (dl & H1 & H2 & _ & H4 & _).
  exists dl. split; [exact H1|]. split; [exact H2|exact H4].
Defined.

(** C3 fails for a record that declares no showcase: its folder on disk has
    two files, the run ends well, and the record in the output keeps an empty
    showcase list. *)
Lemma undeclared_showcases_not_rebuilt :
  get_existing_showcases env (glob_showcase_before env) !! "model_a"
  = Some [folder_a +:+ "/first image.png"; folder_a +:+ "/second.png"]
  /\ exists w' r,
       normalize_and_convert env self database_undeclared fresh_process = (Ok true, w')
       /\ dict_get "model a" (all_model_records w') = Some r
       /\ showcases r = Some []
       /\ showcases r
          <> Some (map (showcase_url env "model_a")
                     [folder_a +:+ "/first image.png"; folder_a +:+ "/second.png"]).
Proof.
  split; [vm_compute; reflexivity|].
  eexists _, _. split; [vm_compute; reflexivity|].
  split; [vm_compute; reflexivity|]. split; [reflexivity|]. discriminate.
Qed.

Lemma showcases_rebuilt_when_declared_witness :
  exists t' w' r',
    process_record env self (get_existing_showcases env (glob_showcase_before env))
      no_tables "model a" declared_record fresh_process = (Ok t', w')
    /\ dict_get "model a" (all_model_records w') = Some r'
    /\ showcases r'
       = Some ["https://example.org/reference/showcase/model_a/first%20image.png";
               "https://example.org/reference/showcase/model_a/second.png"].
Proof.
  let res := eval vm_compute in
    (process_record env self (get_existing_showcases env (glob_showcase_before env))
       no_tables "model a" declared_record fresh_process) in
  lazymatch res with
  | (Ok ?t, ?w) =>
      exists t, w;
      assert (Hrun : process_record env self
                       (get_existing_showcases env (glob_showcase_before env))
                       no_tables "model a" declared_record fresh_process = (Ok t, w))
        by (vm_compute; reflexivity);
      destruct (showcases_rebuilt_when_declared env self
                  (get_existing_showcases env (glob_showcase_before env))
                  no_tables t "model a" declared_record fresh_process w Hrun)
        as (r' & Hr' & files & Hfiles & Hshow)
  end.
  exists r'. split; [exact Hrun|]. split; [exact Hr'|].
  rewrite Hshow. vm_compute in Hfiles. injection Hfiles as <-. reflexivity.
Defined.

(** On an empty database no showcase folder is made: when the target folder
    is not on the disk, the output passes the validation, opening the output
    file raises and nothing is written. *)
Lemma run_without_target_folder_raises :
  exists w',
    run_without_target_folder fresh_process
    = (Raise (OSError "No such file or directory"), w')
    /\ written_files w' = ∅.
Proof. eexists. split; [vm_compute; reflexivity|reflexivity]. Qed.

(** C7 on the code.  The config-entry checks never touch the findings log,
    whatever they are given.  The download of this record has an empty file
    name, a file path and an empty URL: the three findings are printed,
    without the "-> " mark of a logged finding, and the findings log of the
    run stays empty. *)
Theorem config_entry_findings_only_printed :
  (forall (X : externals) (k : string) (cfg : list (string * list config_record))
     (w : world),
     all_validation_errors_log (snd (normalize_and_convert_config_entries X k cfg w))
     = all_validation_errors_log w)
  /\ exists w',
       normalize_and_convert env self database_odd_download fresh_process = (Ok true, w')
       /\ In "model a has a download with no file_name." (stdout w')
       /\ In "model a has a download with a file_path." (stdout w')
       /\ In "model a has a download with no file_url." (stdout w')
       /\ all_validation_errors_log w' = ∅.
Proof.
  split; [intros X k cfg w; apply config_entries_keep_log|].
  eexists. split; [vm_compute; reflexivity|].
  split; [left; reflexivity|]. split; [right; left; reflexivity|].
  split; [right; right; left; reflexivity|]. reflexivity.
Qed.

(** C8 on the code.  After one converter has run, a converter built afresh
    finds the first one's record and finding in [all_model_records] and
    [all_validation_errors_log], and its own run on an empty database writes
    the first one's record to its output. *)
Theorem second_converter_sees_first_run :
  exists records log w',
    two_runs fresh_process = (Ok (records, log), w')
    /\ map fst records = ["model a"]
    /\ log !! "model a" = Some ["model a has a huggingface showcase."]
    /\ written_files w' !! "out2/stable_diffusion.json"
       = Some "{model a:baseline=stable_diffusion_1}".
Proof.
  eexists _, _, _. split; [vm_compute; reflexivity|]. repeat split.
Qed.

Lemma download_url_missing_or_unparseable_witness :
  exists e w',
    normalize_and_convert env self
      [("model a", legacy_record "model a" [] (JObj bad_url))] fresh_process
    = (Raise e, w')
    /\ written_files w' = written_files fresh_process.
Proof.
  eapply (proj2 (download_url_missing_or_unparseable env) self [] []
            ("model a", legacy_record "model a" [] (JObj bad_url))
            no_tables fresh_process fresh_process).
  - reflexivity.
  - vm_compute. reflexivity.
  - left. reflexivity.
  - left. reflexivity.
  - reflexivity.
  - discriminate.
  - vm_compute. reflexivity.
Defined.

End Runs.

(** * Further properties of the converter *)

(** ** Parts of the state a statement only moves forward *)

Section Moves.

Context {F : Type} (R : F -> F -> Prop) `{!PreOrder R} (part : world -> F).

Lemma keeps_moves {A} (c : M A) : keeps part c -> moves R part c.
Proof. intros H w. rewrite (H w). reflexivity. Qed.

Lemma moves_ret {A} (a : A) : moves R part (ret a).
Proof. intros w. reflexivity. Qed.

Lemma moves_raise {A} (e : exn) : moves R part (@raise A e).
Proof. intros w. reflexivity. Qed.

Lemma moves_lift {A} (r : result A) : moves R part (lift r).
Proof. intros w. reflexivity. Qed.

Lemma moves_get_world : moves R part get_world.
Proof. intros w. reflexivity. Qed.

Lemma moves_bind {A B} (c : M A) (k : A -> M B) :
  moves R part c -> (forall a, moves R part (k a)) -> moves R part (x <- c ;; k x).
Proof.
  intros Hc Hk w. unfold bind. specialize (Hc w).
  destruct (c w) as [[a|e] w1]; simpl in *; [|exact Hc].
  etransitivity; [exact Hc|apply Hk].
Qed.

Lemma moves_when (b : bool) (c : M unit) : moves R part c -> moves R part (when b c).
Proof. intros Hc. destruct b; [exact Hc|apply moves_ret]. Qed.

Lemma moves_for_each {A S} (body : S -> A -> M S) (l : list A) (s : S) :
  (forall s x, moves R part (body s x)) -> moves R part (for_each body l s).
Proof.
  intros Hbody. revert s. induction l as [|x l IH]; intros s; simpl.
  - apply moves_ret.
  - apply moves_bind; [apply Hbody|exact IH].
Qed.

Lemma moves_try_except_ValidationError {A} (body : M A) (handler : string -> M A) :
  moves R part body -> (forall e, moves R part (handler e)) ->
  moves R part (try_except_ValidationError body handler).
Proof.
  intros Hb Hh w. unfold try_except_ValidationError. specialize (Hb w).
  destruct (body w) as [[a|e] w1]; simpl in *; [exact Hb|].
  destruct e; simpl; try exact Hb. etransitivity; [exact Hb|apply Hh].
Qed.

Lemma moves_try_except_reraise {A} (body : M A) (handler : M unit) :
  moves R part body -> moves R part handler ->
  moves R part (try_except_reraise body handler).
Proof.
  intros Hb Hh w. unfold try_except_reraise. specialize (Hb w).
  destruct (body w) as [[a|e] w1]; simpl in *; [exact Hb|].
  etransitivity; [exact Hb|].
  apply (moves_bind handler (fun _ => raise e) Hh (fun _ => moves_raise e)).
Qed.

End Moves.

Create HintDb moves.

(** [apply] leaves the preorder to be found. *)
Ltac moves_apply lem := apply lem; [typeclasses eauto | ..].

Ltac moves_step :=
  lazymatch goal with
  | |- moves _ _ (bind _ _) => moves_apply @moves_bind; [|intros]
  | |- moves _ _ (ret _) => moves_apply @moves_ret
  | |- moves _ _ (raise _) => moves_apply @moves_raise
  | |- moves _ _ (lift _) => moves_apply @moves_lift
  | |- moves _ _ get_world => moves_apply @moves_get_world
  | |- moves _ _ (when _ _) => moves_apply @moves_when
  | |- moves _ _ (for_each _ _ _) => moves_apply @moves_for_each; intros
  | |- moves _ _ (try_except_ValidationError _ _) =>
      moves_apply @moves_try_except_ValidationError; [|intros]
  | |- moves _ _ (try_except_reraise _ _) => moves_apply @moves_try_except_reraise
  | |- moves _ _ (if ?b then _ else _) => destruct b
  | |- moves _ _ (match ?x with _ => _ end) => destruct x
  | |- moves _ _ _ => solve [auto with moves]
  end.

Ltac moves_all := repeat moves_step.

(** ** The findings log only grows *)

#[local] Instance log_le_preorder : PreOrder log_le.
Proof.
  split.
  - intros l k. reflexivity.
  - intros l1 l2 l3 H12 H23 k. etransitivity; [apply H12|apply H23].
Qed.

Lemma findings_log_append (k e k' : string) (log : gmap string (list string)) :
  findings (log_append k e log) k'
  = if decide (k = k') then (findings log k ++ [e])%list else findings log k'.
Proof.
  unfold findings, log_append. rewrite lookup_insert.
  destruct (decide (k = k')) as [->|Hne]; reflexivity.
Qed.

Lemma log_append_le (k e : string) (log : gmap string (list string)) :
  log_le log (log_append k e log).
Proof.
  intros k'. rewrite findings_log_append.
  destruct (decide (k = k')) as [->|Hne]; [|reflexivity].
  apply prefix_app_r. reflexivity.
Qed.

Lemma log_moves_print (line : string) :
  moves log_le all_validation_errors_log (print line).
Proof. intros w. reflexivity. Qed.

Lemma log_moves_store (k : string) (r : Legacy_StableDiffusion_ModelRecord) :
  moves log_le all_validation_errors_log (store_record k r).
Proof. intros w. reflexivity. Qed.

Lemma log_moves_mkdir (p : string) : moves log_le all_validation_errors_log (mkdir p).
Proof. intros w. reflexivity. Qed.

Lemma log_moves_write (opening : list string -> string -> result unit) (p c : string) :
  moves log_le all_validation_errors_log (write_file opening p c).
Proof.
  intros w. unfold write_file. destruct (opening (made_dirs w) p); reflexivity.
Qed.

Lemma log_moves_log (self : converter) (k e : string) :
  moves log_le all_validation_errors_log (add_validation_error_to_log self k e).
Proof.
  unfold add_validation_error_to_log. moves_apply @moves_bind.
  - intros w. simpl. apply log_append_le.
  - intros _. moves_apply @moves_when. apply log_moves_print.
Qed.

#[export] Hint Resolve log_moves_print log_moves_store log_moves_mkdir log_moves_write
  log_moves_log : moves.

Section LogGrows.

Variable X : externals.

Lemma log_moves_config_entries (k : string) (cfg : list (string * list config_record)) :
  moves log_le all_validation_errors_log (normalize_and_convert_config_entries X k cfg).
Proof. moves_apply @keeps_moves. apply config_entries_keep_log. Qed.

Lemma log_moves_iterate_step (self : converter) (k : string) (contents : json) :
  moves log_le all_validation_errors_log (iterate_step X self k contents).
Proof. unfold iterate_step, normalize_record. moves_all. Qed.

Lemma log_moves_sanity_checks (self : converter) (k : string)
    (r : Legacy_StableDiffusion_ModelRecord) :
  moves log_le all_validation_errors_log (generic_record_sanity_checks self k r).
Proof. unfold generic_record_sanity_checks. moves_all. Qed.

Lemma log_moves_reconcile_showcases (self : converter)
    (existing : gmap string (list string)) (k expected : string)
    (r : Legacy_StableDiffusion_ModelRecord) :
  moves log_le all_validation_errors_log
    (reconcile_showcases X self existing k expected r).
Proof. unfold reconcile_showcases. moves_all. Qed.

#[local] Hint Resolve log_moves_config_entries log_moves_iterate_step
  log_moves_sanity_checks log_moves_reconcile_showcases : moves.

Lemma log_moves_process_record (self : converter)
    (existing : gmap string (list string)) (t : tables) (k : string)
    (r : Legacy_StableDiffusion_ModelRecord) :
  moves log_le all_validation_errors_log (process_record X self existing t k r).
Proof. unfold process_record, create_showcase_folder. moves_all. Qed.

#[local] Hint Resolve log_moves_process_record : moves.

Lemma log_moves_stream_record (self : converter)
    (existing : gmap string (list string)) (t : tables) (item : string * json) :
  moves log_le all_validation_errors_log (stream_record X self existing t item).
Proof. unfold stream_record. moves_all. Qed.

#[local] Hint Resolve log_moves_stream_record : moves.

(** X1.  The findings log is append-only over a whole run: whatever the
    database and however the run ends, every key keeps the findings it had,
    in order, and new findings come after them. *)
Theorem findings_log_only_grows (self : converter) (data : list (string * json))
    (w : world) :
  log_le (all_validation_errors_log w)
    (all_validation_errors_log (snd (normalize_and_convert X self data w))).
Proof.
  revert w.
  change (moves log_le all_validation_errors_log (normalize_and_convert X self data)).
  unfold normalize_and_convert, convert_and_report, check_final_folders, print_report,
    validate_and_write.
  moves_all.
Qed.

End LogGrows.

(** ** What a failing statement leaves behind *)

Section WhenRaising.

Context {F : Type} (part : world -> F).

Lemma keeps_when_raising_keeps {A} (c : M A) :
  keeps part c -> keeps_when_raising part c.
Proof.
  intros H w. specialize (H w). destruct (c w) as [[a|e] w']; [exact I|exact H].
Qed.

Lemma keeps_when_raising_never {A} (c : M A) :
  never_raises c -> keeps_when_raising part c.
Proof. intros H w. destruct (H w) as (a & w' & ->). exact I. Qed.

Lemma keeps_when_raising_bind {A B} (c : M A) (k : A -> M B) :
  keeps part c -> (forall a, keeps_when_raising part (k a)) ->
  keeps_when_raising part (x <- c ;; k x).
Proof.
  intros Hc Hk w. unfold bind. specialize (Hc w).
  destruct (c w) as [[a|e] w1]; simpl in *; [|exact Hc].
  specialize (Hk a w1). destruct (k a w1) as [[b|e] w2]; [exact I|].
  rewrite Hk. exact Hc.
Qed.

End WhenRaising.

Lemma keeps_records_print (line : string) : keeps all_model_records (print line).
Proof. intros w. reflexivity. Qed.

Lemma keeps_records_log (self : converter) (k e : string) :
  keeps all_model_records (add_validation_error_to_log self k e).
Proof.
  unfold add_validation_error_to_log. apply keeps_bind.
  - intros w. reflexivity.
  - intros _. apply keeps_when, keeps_records_print.
Qed.

#[export] Hint Resolve keeps_records_print keeps_records_log : keeps.

Lemma for_each_stops {A S} (body : S -> A -> M S) (before after : list A) (x : A)
    (s s1 : S) (w w1 w2 : world) (e : exn) :
  for_each body before s w = (Ok s1, w1) -> body s1 x w1 = (Raise e, w2) ->
  for_each body (before ++ x :: after)%list s w = (Raise e, w2).
Proof.
  intros Hbefore Hx. rewrite for_each_app, (bind_ok _ _ _ _ _ Hbefore). simpl.
  apply bind_raise. exact Hx.
Qed.

Section Dropped.

Variable X : externals.

Lemma normalize_record_keeps_records_when_raising (self : converter) (k : string)
    (contents : json) :
  keeps_when_raising all_model_records (normalize_record X self k contents).
Proof.
  unfold normalize_record.
  do 7 (apply keeps_when_raising_bind; [solve [keeps_all]|intros]).
  apply keeps_when_raising_never. intros w. unfold bind, store_record, ret. eauto.
Qed.

(** X2.  A record that pydantic refuses is dropped and the run goes on: when
    the normalization of a record raises [ValidationError], the pass over it
    ends well, a "CRITICAL" finding with the error text is the last finding
    under the record's key, the record mapping and the frequency tables are
    as before. *)
Theorem refused_record_is_logged_and_skipped (self : converter)
    (existing : gmap string (list string)) (t : tables) (k : string) (contents : json)
    (w w1 : world) (e : string) :
  normalize_record X self k contents w = (Raise (ValidationError e), w1) ->
  exists w2,
    stream_record X self existing t (k, contents) w = (Ok t, w2)
    /\ findings (all_validation_errors_log w2) k
       = (findings (all_validation_errors_log w1) k
            ++ ["CRITICAL: Error parsing " +:+ k +:+ ":" +:+ nl +:+ e])%list
    /\ all_model_records w2 = all_model_records w.
Proof.
  intros H.
  pose proof (normalize_record_keeps_records_when_raising self k contents w) as Hrec.
  rewrite H in Hrec.
  assert (Hstep : iterate_step X self k contents w
                  = (add_validation_error_to_log self k
                       ("CRITICAL: Error parsing " +:+ k +:+ ":" +:+ nl +:+ e) ;;;
                     ret None) w1).
  { unfold iterate_step, try_except_ValidationError. unfold bind at 1.
    rewrite H. reflexivity. }
  unfold stream_record. cbn [fst snd]. unfold bind at 1. rewrite Hstep.
  unfold add_validation_error_to_log, bind, when, print, ret.
  destruct (print_errors self); simpl; eexists; (split; [reflexivity|]); simpl;
    (split; [|exact Hrec]);
    rewrite findings_log_append; destruct (decide (k = k)); congruence.
Qed.

(** X3.  The iterator never lets a [ValidationError] out, and it changes the
    record mapping in one case only: when it yields a record, which is then
    the one held under the record's key. *)
Theorem iterator_stores_only_what_it_yields (self : converter) (k : string)
    (contents : json) (w : world) :
  match iterate_step X self k contents w with
  | (Ok (Some r), w') => dict_get k (all_model_records w') = Some r
  | (Ok None, w') => all_model_records w' = all_model_records w
  | (Raise e, w') =>
      all_model_records w' = all_model_records w
      /\ forall msg, e <> ValidationError msg
  end.
Proof.
  pose proof (normalize_record_keeps_records_when_raising self k contents w) as Hrec.
  destruct (iterate_step X self k contents w) as [[[r|]|e] w'] eqn:Hstep.
  - apply iterate_step_inv, normalize_record_inv in Hstep
      as (m & r0 & dl & _ & _ & _ & Hget). exact Hget.
  - unfold iterate_step, try_except_ValidationError, bind in Hstep.
    destruct (normalize_record X self k contents w) as [[r|e] w1]; [discriminate|].
    destruct e; try discriminate.
    pose proof (keeps_records_log self k
                  ("CRITICAL: Error parsing " +:+ k +:+ ":" +:+ nl +:+ msg) w1) as Hlog.
    destruct (add_validation_error_to_log self k _ w1) as [[u|e'] w2]; [|discriminate].
    unfold ret in Hstep. injection Hstep as <-. simpl in Hlog. congruence.
  - unfold iterate_step, try_except_ValidationError, bind in Hstep.
    destruct (normalize_record X self k contents w) as [[r|e0] w1]; [discriminate|].
    destruct e0;
      try (injection Hstep as <- <-; split; [exact Hrec|intros msg'; discriminate]).
    destruct (add_validation_error_to_log_ok self k
                ("CRITICAL: Error parsing " +:+ k +:+ ":" +:+ nl +:+ msg) w1)
      as (w2 & Hlog).
    rewrite Hlog in Hstep. discriminate Hstep.
Qed.

(** X4.  A record with no "config" key ends the run: reading it raises
    [KeyError] for "config", which nothing catches; the state is as the
    records before it left it, and no file is written. *)
Theorem record_without_config_aborts_run (self : converter)
    (before after : list (string * json)) (k : string) (m : list (string * json))
    (t1 : tables) (w w1 : world) :
  for_each (stream_record X self (get_existing_showcases X (glob_showcase_before X)))
    before no_tables w = (Ok t1, w1) ->
  dict_get "config" m = None ->
  normalize_and_convert X self (before ++ (k, JObj m) :: after)%list w
  = (Raise (KeyError (Some "config")), w1)
  /\ written_files w1 = written_files w.
Proof.
  intros Hbefore Hm.
  assert (Hrun : convert_and_report X self (before ++ (k, JObj m) :: after)%list w
                 = (Raise (KeyError (Some "config")), w1)).
  { unfold convert_and_report. apply bind_raise.
    eapply for_each_stops; [exact Hbefore|].
    unfold stream_record, iterate_step, try_except_ValidationError, normalize_record.
    simpl. rewrite Hm. reflexivity. }
  split.
  - unfold normalize_and_convert. apply bind_raise. exact Hrun.
  - pose proof (convert_and_report_keeps_written X self
                  (before ++ (k, JObj m) :: after)%list w) as Hkeep.
    rewrite Hrun in Hkeep. exact Hkeep.
Qed.

End Dropped.

(** ** Config keys the iterator does not know *)

Section ConfigKeys.

Variable X : externals.

Lemma config_entry_files (cfg : list (string * json)) (fv : json) (st : locals) :
  dict_get "files" cfg = Some fv ->
  config_entry_body X (JObj cfg) st (JStr "files")
  = rbind (py_iter fv) (fun items => rfold (files_body X) items st).
Proof. intros H. unfold config_entry_body. simpl. rewrite H. reflexivity. Qed.

Lemma config_entry_download (cfg : list (string * json)) (dv : json) (st : locals) :
  dict_get "download" cfg = Some dv ->
  config_entry_body X (JObj cfg) st (JStr "download")
  = rbind (py_iter dv) (fun items => rfold (download_body X) items st).
Proof. intros H. unfold config_entry_body. simpl. rewrite H. reflexivity. Qed.

(** X5.  Config keys other than "files" and "download" are passed over: the
    loop over the config ends as it does on the config reduced to its "files"
    and "download" entries, whatever these hold. *)
Theorem other_config_keys_are_ignored (pre mid post : list (string * json))
    (fv dv : json) (st : locals) :
  other_keys pre = true -> other_keys mid = true -> other_keys post = true ->
  let cfg := (pre ++ ("files", fv) :: mid ++ ("download", dv) :: post)%list in
  let cfg0 := [("files", fv); ("download", dv)] in
  rfold (config_entry_body X (JObj cfg)) (map (fun kv => JStr (fst kv)) cfg) st
  = rfold (config_entry_body X (JObj cfg0)) (map (fun kv => JStr (fst kv)) cfg0) st.
Proof.
  intros Hpre Hmid Hpost cfg cfg0.
  assert (Hf : dict_get "files" cfg = Some fv).
  { unfold cfg. rewrite (dict_get_other_keys "files" pre _ (or_introl eq_refl) Hpre).
    reflexivity. }
  assert (Hd : dict_get "download" cfg = Some dv).
  { unfold cfg. rewrite (dict_get_other_keys "download" pre _ (or_intror eq_refl) Hpre).
    simpl. rewrite (dict_get_other_keys "download" mid _ (or_intror eq_refl) Hmid).
    reflexivity. }
  unfold cfg0. clear cfg0.
  unfold cfg at 2. rewrite map_app, rfold_app, (other_keys_loop X _ pre _ Hpre).
  cbn [rbind map fst rfold]. rewrite (config_entry_files cfg fv st Hf).
  rewrite (config_entry_files [("files", fv); ("download", dv)] fv st eq_refl).
  destruct (rbind (py_iter fv) (fun items => rfold (files_body X) items st))
    as [st1|e]; [|reflexivity].
  cbn [rbind]. rewrite map_app, rfold_app, (other_keys_loop X _ mid _ Hmid).
  cbn [rbind map fst rfold]. rewrite (config_entry_download cfg dv st1 Hd).
  rewrite (config_entry_download [("files", fv); ("download", dv)] dv st1 eq_refl).
  destruct (rbind (py_iter dv) (fun items => rfold (download_body X) items st1))
    as [st2|e]; [|reflexivity].
  cbn [rbind]. apply other_keys_loop. exact Hpost.
Qed.

End ConfigKeys.

(** ** What the config checks return *)

Lemma total_incr (k : string) (c : counts) : total (incr k c) = S (total c).
Proof.
  unfold total. induction c as [|[k' n] c IH]; simpl; [reflexivity|].
  destruct (String.eqb k k'); simpl; [reflexivity|]. rewrite IH. lia.
Qed.

Section CheckerResult.

Variable X : externals.

Lemma check_download_record_ok_inv (k : string) (st st' : counts * list config_record)
    (d : Legacy_Config_DownloadRecord) (w w' : world) :
  check_download_record X k st d w = (Ok st', w') ->
  snd st' = (snd st ++ [CfgDownload (mark_slow d)])%list
  /\ total (fst st') = total (fst st) + (if has_url d then 1 else 0).
Proof.
  unfold check_download_record, mark_slow, has_url.
  unfold bind, when, print, ret, try_except_reraise, raise.
  destruct (is_none_or_empty (dl_file_name d));
    destruct (dl_file_path d) as [fp|]; try destruct (negb (String.eqb fp ""));
    destruct (is_none_or_empty (dl_file_url d));
    try destruct (urlparse_netloc X (default "" (dl_file_url d)));
    simpl; intros H; try discriminate H; injection H as <- _; simpl;
    rewrite ?total_incr; split; try reflexivity; lia.
Qed.

Lemma check_download_loop_ok_inv (k : string) (items : list config_record)
    (st st' : counts * list config_record) (w w' : world) :
  for_each (check_download X k) items st w = (Ok st', w') ->
  snd st' = (snd st ++ map mark_slow_item items)%list
  /\ total (fst st') = total (fst st) + length (List.filter item_has_url items).
Proof.
  revert st w. induction items as [|i items IH]; intros st w H; simpl in H.
  - unfold ret in H. injection H as <- _. simpl. rewrite app_nil_r. split; [reflexivity|lia].
  - apply bind_inv_ok in H as (st1 & w1 & Hi & H).
    destruct i as [f|d]; simpl in Hi.
    + apply bind_inv_ok in Hi as (u & w2 & _ & Hi). discriminate Hi.
    + apply check_download_record_ok_inv in Hi as [Hi1 Hi2].
      apply IH in H as [H1 H2]. rewrite H1, Hi1, H2, Hi2, <- app_assoc. simpl.
      destruct (has_url d); simpl; split; try reflexivity; lia.
Qed.

Lemma check_config_entry_ok_inv (k : string)
    (st st' : counts * list (string * list config_record))
    (entry : string * list config_record) (w w' : world) :
  check_config_entry X k st entry w = (Ok st', w') ->
  snd st' = (snd st ++ [mark_slow_entry entry])%list
  /\ total (fst st') = total (fst st) + entry_urls entry.
Proof.
  destruct entry as [key items]. unfold check_config_entry, mark_slow_entry, entry_urls.
  cbn [fst snd].
  destruct (String.eqb key "files"); [|destruct (String.eqb key "download")].
  - intros H. apply bind_inv_ok in H as (u & w1 & _ & H).
    unfold ret in H. injection H as <- _. simpl. split; [reflexivity|lia].
  - intros H. apply bind_inv_ok in H as (r & w1 & Hloop & H).
    unfold ret in H. injection H as <- _. simpl.
    apply check_download_loop_ok_inv in Hloop as [H1 H2]. simpl in H1, H2.
    rewrite H1, H2. split; reflexivity.
  - unfold ret. intros H. injection H as <- _. simpl. split; [reflexivity|lia].
Qed.

Lemma check_config_loop_ok_inv (k : string) (cfg : list (string * list config_record))
    (st st' : counts * list (string * list config_record)) (w w' : world) :
  for_each (check_config_entry X k) cfg st w = (Ok st', w') ->
  snd st' = (snd st ++ map mark_slow_entry cfg)%list
  /\ total (fst st') = total (fst st) + sum_list (map entry_urls cfg).
Proof.
  revert st w. induction cfg as [|entry cfg IH]; intros st w H; simpl in H.
  - unfold ret in H. injection H as <- _. simpl. rewrite app_nil_r. split; [reflexivity|lia].
  - apply bind_inv_ok in H as (st1 & w1 & Hentry & H).
    apply check_config_entry_ok_inv in Hentry as [He1 He2].
    apply IH in H as [H1 H2]. rewrite H1, He1, H2, He2, <- app_assoc. simpl.
    split; [reflexivity|lia].
Qed.

(** X6.  When the config checks end well, the config they leave has the same
    entries in the same order, and every download in it is the record they
    were given, marked as a known slow download when its URL contains
    "civitai": no name, path, URL or checksum is changed, and a mark that was
    set is never cleared. *)
Theorem config_checks_only_mark_slow_downloads (k : string)
    (cfg cfg' : list (string * list config_record)) (hosts : counts) (w w' : world) :
  normalize_and_convert_config_entries X k cfg w = (Ok (hosts, cfg'), w') ->
  cfg' = map mark_slow_entry cfg
  /\ (forall d : Legacy_Config_DownloadRecord,
        dl_file_name (mark_slow d) = dl_file_name d
        /\ dl_file_path (mark_slow d) = dl_file_path d
        /\ dl_file_url (mark_slow d) = dl_file_url d
        /\ dl_sha256sum (mark_slow d) = dl_sha256sum d
        /\ (dl_known_slow_download d = true ->
            dl_known_slow_download (mark_slow d) = true)).
Proof.
  unfold normalize_and_convert_config_entries. intros H.
  apply check_config_loop_ok_inv in H as [H _]. split; [exact H|].
  intros d. unfold mark_slow.
  destruct (has_url d && str_contains "civitai" (default "" (dl_file_url d)));
    simpl; repeat split; auto.
Qed.

(** X7.  When the config checks end well, the counts of the hosts table they
    return add up to the number of downloads that have a URL: every such
    download is counted once, under some host. *)
Theorem download_hosts_count_every_url (k : string)
    (cfg cfg' : list (string * list config_record)) (hosts : counts) (w w' : world) :
  normalize_and_convert_config_entries X k cfg w = (Ok (hosts, cfg'), w') ->
  total hosts = sum_list (map entry_urls cfg).
Proof.
  unfold normalize_and_convert_config_entries. intros H.
  apply check_config_loop_ok_inv in H as [_ H]. exact H.
Qed.

End CheckerResult.

(** ** Statements that always end well *)

Lemma never_raises_ret {A} (a : A) : never_raises (ret a).
Proof. intros w. unfold ret. eauto. Qed.

Lemma never_raises_bind {A B} (c : M A) (k : A -> M B) :
  never_raises c -> (forall a, never_raises (k a)) -> never_raises (x <- c ;; k x).
Proof.
  intros Hc Hk w. destruct (Hc w) as (a & w1 & Ha).
  rewrite (bind_ok _ _ _ _ _ Ha). apply Hk.
Qed.

Lemma never_raises_when (b : bool) (c : M unit) : never_raises c -> never_raises (when b c).
Proof. intros Hc. destruct b; [exact Hc|apply never_raises_ret]. Qed.

Lemma never_raises_log (self : converter) (k e : string) :
  never_raises (add_validation_error_to_log self k e).
Proof.
  intros w. destruct (add_validation_error_to_log_ok self k e w) as (w' & H). eauto.
Qed.

Lemma never_raises_store (k : string) (r : Legacy_StableDiffusion_ModelRecord) :
  never_raises (store_record k r).
Proof. intros w. unfold store_record. eauto. Qed.

Lemma never_raises_mkdir (p : string) : never_raises (mkdir p).
Proof. intros w. unfold mkdir. eauto. Qed.

Lemma sanity_checks_never_raise (self : converter) (k : string)
    (r : Legacy_StableDiffusion_ModelRecord) :
  never_raises (generic_record_sanity_checks self k r).
Proof.
  unfold generic_record_sanity_checks.
  repeat first [ apply never_raises_log
               | apply never_raises_when
               | apply never_raises_bind; [|intros] ].
Qed.

Lemma keeps_all_records_sanity (self : converter) (k : string)
    (r : Legacy_StableDiffusion_ModelRecord) :
  keeps all_model_records (generic_record_sanity_checks self k r).
Proof. unfold generic_record_sanity_checks. keeps_all. Qed.

(** ** The loop body on one record *)

Section LoopBody.

Variable X : externals.

Lemma reconcile_showcases_shape (self : converter)
    (existing : gmap string (list string)) (k expected : string)
    (r r' : Legacy_StableDiffusion_ModelRecord) (w w' : world) :
  reconcile_showcases X self existing k expected r w = (Ok r', w') ->
  r' = r \/ exists l, r' = set_showcases r l.
Proof.
  unfold reconcile_showcases.
  destruct (showcases r) as [[|s l]|].
  - unfold ret. intros H. injection H as <- _. left. reflexivity.
  - intros H.
    apply bind_inv_ok in H as (u1 & w1 & _ & H).
    apply bind_inv_ok in H as (u2 & w2 & _ & H).
    apply bind_inv_ok in H as (u3 & w3 & _ & H).
    destruct (existing !! expected) as [files|]; [|discriminate H].
    apply bind_inv_ok in H as (u4 & w4 & _ & H).
    unfold ret in H. injection H as <- _. right. eauto.
  - unfold ret. intros H. injection H as <- _. left. reflexivity.
Qed.

(** What a pass of the loop body that ends well has done. *)
Lemma process_record_ok_inv (self : converter) (existing : gmap string (list string))
    (t t' : tables) (k : string) (r : Legacy_StableDiffusion_ModelRecord)
    (w w' : world) :
  process_record X self existing t k r w = (Ok t', w') ->
  exists (r2 : Legacy_StableDiffusion_ModelRecord) (hosts : counts),
    (r2 = set_baseline r (convert_legacy_baseline (baseline r))
     \/ exists l, r2 = set_showcases
                         (set_baseline r (convert_legacy_baseline (baseline r))) l)
    /\ dict_get k (all_model_records w')
       = Some (set_config r2 (map mark_slow_entry (config r)))
    /\ all_styles t' = incr (style r) (all_styles t)
    /\ all_baseline_types t'
       = incr (convert_legacy_baseline (baseline r)) (all_baseline_types t)
    /\ all_model_hosts t'
       = fold_left (fun acc host => incr (fst host) acc) hosts (all_model_hosts t).
Proof.
  unfold process_record. intros H.
  apply bind_inv_ok in H as (u1 & w1 & _ & H).
  apply bind_inv_ok in H as (u2 & w2 & _ & H).
  apply bind_inv_ok in H as (u3 & w3 & _ & H).
  apply bind_inv_ok in H as (u4 & w4 & _ & H).
  apply bind_inv_ok in H as (r2 & w5 & Hr2 & H).
  apply bind_inv_ok in H as (u6 & w6 & _ & H).
  apply bind_inv_ok in H as ([hosts cfg'] & w7 & Hfound & H).
  apply bind_inv_ok in H as (u8 & w8 & Hstore & H).
  unfold ret in H. injection H as <- <-.
  unfold store_record in Hstore. injection Hstore as _ <-.
  pose proof (reconcile_showcases_config X _ _ _ _ _ _ _ _ Hr2) as Hcfg.
  apply reconcile_showcases_shape in Hr2.
  apply config_checks_only_mark_slow_downloads in Hfound as [-> _].
  exists r2, hosts. simpl. split; [exact Hr2|]. rewrite Hcfg. simpl.
  split; [apply dict_get_set_eq|]. repeat split.
Qed.

(** X8.  A pass of the loop body that ends well leaves the record under its
    key with its name, type, style, description, flags and tags as the
    iterator yielded them; its baseline is the converted one; its config is
    the yielded one with slow downloads marked. *)
Theorem loop_body_changes_baseline_showcases_and_marks_only (self : converter)
    (existing : gmap string (list string)) (t t' : tables) (k : string)
    (r : Legacy_StableDiffusion_ModelRecord) (w w' : world) :
  process_record X self existing t k r w = (Ok t', w') ->
  exists r',
    dict_get k (all_model_records w') = Some r'
    /\ name r' = name r /\ type r' = type r /\ style r' = style r
    /\ description r' = description r /\ available r' = available r
    /\ download_all r' = download_all r /\ tags r' = tags r
    /\ baseline r' = convert_legacy_baseline (baseline r)
    /\ config r' = map mark_slow_entry (config r).
Proof.
  intros H. apply process_record_ok_inv in H as (r2 & hosts & Hr2 & Hget & _).
  eexists. split; [exact Hget|].
  destruct Hr2 as [->|[l ->]]; simpl; repeat split.
Qed.

(** X9.  Every record that passes the loop body is counted once in the styles
    table and once in the baselines table, under its style and its converted
    baseline: over a run that reaches the report, the two tables add up to
    the same number, which is at most the number of records in the
    database. *)
Theorem styles_and_baselines_count_the_same_records (self : converter)
    (data : list (string * json)) (t : tables) (w w' : world) :
  convert_and_report X self data w = (Ok t, w') ->
  total (all_styles t) = total (all_baseline_types t)
  /\ total (all_styles t) <= length data.
Proof.
  unfold convert_and_report. intros H.
  apply bind_inv_ok in H as (t1 & w1 & Hloop & H).
  apply bind_inv_ok in H as (names & w2 & _ & H).
  apply bind_inv_ok in H as (u & w3 & _ & H).
  unfold ret in H. injection H as <- _.
  assert (Hgen : forall data t0 w0 t1 w1,
             for_each (stream_record X self
                         (get_existing_showcases X (glob_showcase_before X)))
               data t0 w0 = (Ok t1, w1) ->
             total (all_styles t1) + total (all_baseline_types t0)
             = total (all_baseline_types t1) + total (all_styles t0)
             /\ total (all_styles t1) <= total (all_styles t0) + length data).
  { clear. induction data as [|item data IH]; intros t0 w0 t1 w1 H; simpl in H.
    - unfold ret in H. injection H as <- _. simpl. lia.
    - apply bind_inv_ok in H as (t2 & w2 & Hitem & H).
      apply IH in H as [H1 H2].
      unfold stream_record in Hitem.
      apply bind_inv_ok in Hitem as (o & w3 & _ & Hitem).
      destruct o as [r|].
      + apply process_record_ok_inv in Hitem
          as (r2 & hosts & _ & _ & Hs & Hb & _).
        rewrite Hs, Hb, !total_incr in *. simpl. lia.
      + unfold ret in Hitem. injection Hitem as <- _. simpl. lia. }
  apply Hgen in Hloop. simpl in Hloop. unfold total in Hloop at 2 4. simpl in Hloop. lia.
Qed.

End LoopBody.

(** ** Showcase folders *)

Lemma dirs_move_print (line : string) : moves prefix made_dirs (print line).
Proof. intros w. reflexivity. Qed.

Lemma dirs_move_store (k : string) (r : Legacy_StableDiffusion_ModelRecord) :
  moves prefix made_dirs (store_record k r).
Proof. intros w. reflexivity. Qed.

Lemma dirs_move_mkdir (p : string) : moves prefix made_dirs (mkdir p).
Proof. intros w. simpl. apply prefix_app_r. reflexivity. Qed.

Lemma dirs_move_log (self : converter) (k e : string) :
  moves prefix made_dirs (add_validation_error_to_log self k e).
Proof.
  unfold add_validation_error_to_log. moves_apply @moves_bind.
  - intros w. reflexivity.
  - intros _. moves_apply @moves_when. apply dirs_move_print.
Qed.

#[export] Hint Resolve dirs_move_print dirs_move_store dirs_move_mkdir dirs_move_log
  : moves.

Section Showcases.

Variable X : externals.

Lemma dirs_move_config_entries (k : string) (cfg : list (string * list config_record)) :
  moves prefix made_dirs (normalize_and_convert_config_entries X k cfg).
Proof.
  unfold normalize_and_convert_config_entries. moves_apply @moves_for_each.
  intros st [key items]. unfold check_config_entry.
  destruct (String.eqb key "files"); [|destruct (String.eqb key "download")].
  - moves_all; try (unfold check_file; moves_all).
  - moves_all; try (unfold check_download; moves_all);
      try (unfold check_download_record; moves_all).
  - moves_all.
Qed.

Lemma dirs_move_reconcile_showcases (self : converter)
    (existing : gmap string (list string)) (k expected : string)
    (r : Legacy_StableDiffusion_ModelRecord) :
  moves prefix made_dirs (reconcile_showcases X self existing k expected r).
Proof. unfold reconcile_showcases. moves_all. Qed.

#[local] Hint Resolve dirs_move_config_entries dirs_move_reconcile_showcases : moves.

(** The statements of the loop body up to the creation of the showcase
    folder always end well. *)
Lemma process_record_reaches_showcases (self : converter)
    (existing : gmap string (list string)) (t : tables) (k : string)
    (r : Legacy_StableDiffusion_ModelRecord) (w : world) :
  exists w4 rest,
    process_record X self existing t k r w = rest w4
    /\ all_model_records w4
       = dict_set k (set_baseline r (convert_legacy_baseline (baseline r)))
           (all_model_records w)
    /\ written_files w4 = written_files w
    /\ In (joinpath X (joinpath X (converted_folder_path self) default_showcase_folder_name)
             (model_name_to_showcase_folder_name X k)) (made_dirs w4)
    /\ moves prefix made_dirs rest
    /\ rest
       = (r2 <- reconcile_showcases X self existing k
                  (model_name_to_showcase_folder_name X k)
                  (set_baseline r (convert_legacy_baseline (baseline r))) ;;
          when (length (config r2) =? 0)%nat
            (add_validation_error_to_log self k (k +:+ " has no config.")) ;;;
          found <- normalize_and_convert_config_entries X k (config r2) ;;
          store_record k (set_config r2 (snd found)) ;;;
          ret {| all_baseline_types :=
                   incr (baseline (set_baseline r (convert_legacy_baseline (baseline r))))
                     (all_baseline_types t);
                 all_styles := incr (style r) (all_styles t);
                 all_tags := match tags r2 with
                             | Some l => fold_left (fun acc tag => incr tag acc) l (all_tags t)
                             | None => all_tags t
                             end;
                 all_model_hosts :=
                   fold_left (fun acc host => incr (fst host) acc) (fst found)
                     (all_model_hosts t) |}).
Proof.
  unfold process_record.
  destruct (sanity_checks_never_raise self k r w) as (u1 & w1 & H1).
  pose proof (sanity_checks_keep_written self k r w) as K1.
  pose proof (keeps_all_records_sanity self k r w) as R1.
  rewrite H1 in K1, R1. simpl in K1, R1.
  rewrite (bind_ok _ _ _ _ _ H1).
  set (lg := add_validation_error_to_log self k (k +:+ " is not a ckpt!")).
  destruct (never_raises_when (negb (String.eqb (type r) "ckpt")) lg
              (never_raises_log self k _) w1) as (u2 & w2 & H2).
  pose proof (keeps_when written_files (negb (String.eqb (type r) "ckpt")) lg
                (keeps_written_log self k _) w1) as K2.
  pose proof (keeps_when all_model_records (negb (String.eqb (type r) "ckpt")) lg
                (keeps_records_log self k _) w1) as R2.
  rewrite H2 in K2, R2. simpl in K2, R2.
  rewrite (bind_ok _ _ _ _ _ H2).
  unfold bind at 1. unfold store_record at 1.
  unfold create_showcase_folder. unfold bind at 1. unfold mkdir at 1.
  eexists _, _. split; [reflexivity|]. simpl.
  split; [congruence|]. split; [congruence|].
  split; [apply in_or_app; right; left; reflexivity|].
  split; [moves_all|reflexivity].
Qed.

End Showcases.

Section ShowcaseFolders.

Variable X : externals.


Lemma reconcile_showcases_missing_folder (self : converter)
    (existing : gmap string (list string)) (k expected s : string) (l : list string)
    (r : Legacy_StableDiffusion_ModelRecord) (w : world) :
  showcases r = Some (s :: l) -> existing !! expected = None ->
  exists w',
    reconcile_showcases X self existing k expected r w
    = (Raise (KeyError (Some expected)), w')
    /\ (exists fs,
          findings (all_validation_errors_log w') k
          = (fs ++ [k +:+ " has no showcase folder. Expected: " +:+ expected])%list)
    /\ dict_get k (all_model_records w') = Some (set_showcases r [])
    /\ written_files w' = written_files w.
Proof.
  intros Hs He. unfold reconcile_showcases. rewrite Hs, He.
  unfold bind, when, add_validation_error_to_log, bind, when, store_record, print,
    ret, raise.
  destruct (existsb (str_contains "huggingface") (s :: l)), (print_errors self);
    simpl; eexists; (split; [reflexivity|]); simpl;
    (split; [|split; [apply dict_get_set_eq|reflexivity]]);
    rewrite findings_log_append; destruct (decide (k = k)); try congruence; eauto.
Qed.

(** X11.  A record that declares a showcase while no showcase folder was
    listed for it ends the run: the missing folder is logged under the
    record's key, the declared showcases are discarded, and the lookup of the
    folder's files then raises [KeyError], which nothing catches; no file is
    written. *)
Theorem declared_showcase_without_folder_aborts_run (self : converter)
    (before after : list (string * json)) (k : string) (contents : json)
    (t1 : tables) (w w1 w2 : world) (r : Legacy_StableDiffusion_ModelRecord)
    (s : string) (l : list string) :
  let existing := get_existing_showcases X (glob_showcase_before X) in
  let expected := model_name_to_showcase_folder_name X k in
  for_each (stream_record X self existing) before no_tables w = (Ok t1, w1) ->
  iterate_step X self k contents w1 = (Ok (Some r), w2) ->
  showcases r = Some (s :: l) ->
  existing !! expected = None ->
  exists w',
    normalize_and_convert X self (before ++ (k, contents) :: after)%list w
    = (Raise (KeyError (Some expected)), w')
    /\ written_files w' = written_files w
    /\ (exists fs,
          findings (all_validation_errors_log w') k
          = (fs ++ [k +:+ " has no showcase folder. Expected: " +:+ expected])%list)
    /\ exists r', dict_get k (all_model_records w') = Some r' /\ showcases r' = Some [].
Proof.
  intros existing expected Hbefore Hstep Hs He.
  destruct (process_record_reaches_showcases X self existing t1 k r w2)
    as (w4 & rest & Hrest & _ & _ & _ & _ & ->).
  destruct (reconcile_showcases_missing_folder self existing k expected s l
              (set_baseline r (convert_legacy_baseline (baseline r))) w4 Hs He)
    as (w' & Hraise & Hlog & Hget & _).
  rewrite (bind_raise _ _ _ _ _ Hraise) in Hrest.
  assert (Hrun : convert_and_report X self (before ++ (k, contents) :: after)%list w
                 = (Raise (KeyError (Some expected)), w')).
  { unfold convert_and_report. apply bind_raise.
    eapply for_each_stops; [exact Hbefore|].
    unfold stream_record. cbn [fst snd]. rewrite (bind_ok _ _ _ _ _ Hstep).
    exact Hrest. }
  exists w'. split; [unfold normalize_and_convert; apply bind_raise; exact Hrun|].
  split.
  - pose proof (convert_and_report_keeps_written X self
                  (before ++ (k, contents) :: after)%list w) as Hkeep.
    rewrite Hrun in Hkeep. exact Hkeep.
  - split; [exact Hlog|]. eexists. split; [exact Hget|reflexivity].
Qed.

(** X12.  The listing of existing showcases has exactly the folder names of
    the folders found: every folder found is listed under its folder name,
    with the files found in one of the folders of that name, and nothing else
    is listed. *)
Theorem existing_showcases_are_the_folders_found (folders : list string) (n : string) :
  (forall f, In f folders ->
     is_Some (get_existing_showcases X folders
                !! model_name_to_showcase_folder_name X (path_name X f)))
  /\ (forall files,
        get_existing_showcases X folders !! n = Some files ->
        exists f, In f folders
                  /\ n = model_name_to_showcase_folder_name X (path_name X f)
                  /\ files = glob_folder X (joinpath X f "*")).
Proof.
  unfold get_existing_showcases.
  induction folders as [|f0 folders IH] using rev_ind.
  - split; [intros f []|]. intros files H. simpl in H. rewrite lookup_empty in H.
    discriminate H.
  - rewrite fold_left_app. simpl. destruct IH as [IH1 IH2]. split.
    + intros f Hin.
      destruct (decide (model_name_to_showcase_folder_name X (path_name X f0)
                        = model_name_to_showcase_folder_name X (path_name X f)))
        as [Heq|Hne].
      * rewrite Heq, lookup_insert_eq. eauto.
      * rewrite lookup_insert_ne; [|exact Hne].
        apply in_app_or in Hin as [Hin|[->|[]]]; [apply IH1; exact Hin|contradiction].
    + intros files H.
      destruct (decide (model_name_to_showcase_folder_name X (path_name X f0) = n))
        as [Heq|Hne].
      * rewrite Heq, lookup_insert_eq in H. injection H as <-.
        exists f0. split; [apply in_or_app; right; left; reflexivity|].
        split; [symmetry; exact Heq|reflexivity].
      * rewrite lookup_insert_ne in H; [|exact Hne].
        destruct (IH2 files H) as (f & Hin & Hn & Hfiles).
        exists f. split; [apply in_or_app; left; exact Hin|]. split; assumption.
Qed.

End ShowcaseFolders.

(** ** Where findings go *)

Lemma keeps_stdout_store (k : string) (r : Legacy_StableDiffusion_ModelRecord) :
  keeps stdout (store_record k r).
Proof. intros w. reflexivity. Qed.

Lemma keeps_stdout_mkdir (p : string) : keeps stdout (mkdir p).
Proof. intros w. reflexivity. Qed.

Lemma keeps_stdout_log (self : converter) (k e : string) :
  print_errors self = false -> keeps stdout (add_validation_error_to_log self k e).
Proof.
  intros H w. unfold add_validation_error_to_log, bind, when. rewrite H. reflexivity.
Qed.

Lemma keeps_findings_print (k' line : string) :
  keeps (fun w => findings (all_validation_errors_log w) k') (print line).
Proof. intros w. reflexivity. Qed.

Lemma keeps_findings_store (k' k : string) (r : Legacy_StableDiffusion_ModelRecord) :
  keeps (fun w => findings (all_validation_errors_log w) k') (store_record k r).
Proof. intros w. reflexivity. Qed.

Lemma keeps_findings_mkdir (k' p : string) :
  keeps (fun w => findings (all_validation_errors_log w) k') (mkdir p).
Proof. intros w. reflexivity. Qed.

Lemma keeps_findings_log (self : converter) (k' k e : string) :
  k <> k' ->
  keeps (fun w => findings (all_validation_errors_log w) k')
    (add_validation_error_to_log self k e).
Proof.
  intros Hne w. unfold add_validation_error_to_log, bind, when, print, ret.
  destruct (print_errors self); simpl; rewrite findings_log_append;
    destruct (decide (k = k')); congruence.
Qed.

Lemma keeps_under {F G A} (part : world -> F) (f : F -> G) (c : M A) :
  keeps part c -> keeps (fun w => f (part w)) c.
Proof. intros H w. simpl. rewrite (H w). reflexivity. Qed.

#[export] Hint Resolve keeps_stdout_store keeps_stdout_mkdir keeps_stdout_log
  keeps_findings_print keeps_findings_store keeps_findings_mkdir keeps_findings_log
  : keeps.

Section Findings.

Variable X : externals.

(** X13.  With [print_errors] off, the iterator, the sanity checks and the
    checks of the final folders print nothing: their findings go to the log
    only. *)
Theorem print_errors_off_silences_logged_findings (self : converter) :
  print_errors self = false ->
  (forall k contents w,
     stdout (snd (iterate_step X self k contents w)) = stdout w)
  /\ (forall k r w,
        stdout (snd (generic_record_sanity_checks self k r w)) = stdout w)
  /\ (forall w, stdout (snd (check_final_folders X self w)) = stdout w).
Proof.
  intros Hoff. repeat split.
  - intros k contents.
    change (keeps stdout (iterate_step X self k contents)).
    unfold iterate_step, normalize_record. keeps_all.
  - intros k r.
    change (keeps stdout (generic_record_sanity_checks self k r)).
    unfold generic_record_sanity_checks. keeps_all.
  - change (keeps stdout (check_final_folders X self)).
    unfold check_final_folders. keeps_all.
Qed.

Lemma keeps_findings_config_entries (k' k : string)
    (cfg : list (string * list config_record)) :
  keeps (fun w => findings (all_validation_errors_log w) k')
    (normalize_and_convert_config_entries X k cfg).
Proof.
  apply (keeps_under all_validation_errors_log (fun log => findings log k')).
  apply config_entries_keep_log.
Qed.

#[local] Hint Resolve keeps_findings_config_entries : keeps.

(** X14.  The findings of a record are filed under its own key: a pass of the
    iterator and of the loop body over a record leaves the findings of every
    other key as they were. *)
Theorem findings_go_under_the_record_key (self : converter)
    (existing : gmap string (list string)) (t : tables) (item : string * json)
    (k' : string) (w : world) :
  fst item <> k' ->
  findings (all_validation_errors_log (snd (stream_record X self existing t item w))) k'
  = findings (all_validation_errors_log w) k'.
Proof.
  intros Hne. revert w.
  change (keeps (fun w => findings (all_validation_errors_log w) k')
            (stream_record X self existing t item)).
  unfold stream_record, iterate_step, normalize_record, process_record,
    generic_record_sanity_checks, create_showcase_folder, reconcile_showcases.
  keeps_all.
Qed.

End Findings.

(** * The further properties on concrete databases *)

Section MoreRuns.

Import Demo.

Lemma refused_record_is_logged_and_skipped_witness :
  exists w2,
    stream_record env self existing no_tables
      ("model a", JObj [("config", JObj files_first)]) fresh_process
    = (Ok no_tables, w2)
    /\ findings (all_validation_errors_log w2) "model a"
       = ["CRITICAL: Error parsing model a:" +:+ nl +:+ "name: field required"]
    /\ all_model_records w2 = [].
Proof.
  assert (H : normalize_record env self "model a" (JObj [("config", JObj files_first)])
                fresh_process
              = (Raise (ValidationError "name: field required"), fresh_process))
    by (vm_compute; reflexivity).
  destruct (refused_record_is_logged_and_skipped env self existing no_tables "model a"
              _ _ _ _ H) as (w2 & H1 & H2 & H3).
  exists w2. split; [exact H1|]. split; [exact H2|exact H3].
Defined.

Lemma record_without_config_aborts_run_witness :
  normalize_and_convert env self [("model a", JObj [("name", JStr "model a")])]
    fresh_process
  = (Raise (KeyError (Some "config")), fresh_process)
  /\ written_files fresh_process = written_files fresh_process.
Proof.
  apply (record_without_config_aborts_run env self [] [] "model a"
           [("name", JStr "model a")] no_tables fresh_process fresh_process);
    reflexivity.
Defined.

Lemma other_config_keys_are_ignored_witness :
  rfold (config_entry_body env
           (JObj ([("format", JStr "ckpt")]
                  ++ ("files", JArr [ckpt_file]) :: []
                  ++ ("download", JArr [ckpt_download]) :: [("size", JNum 4)])))
    (map (fun kv => JStr (fst kv))
       ([("format", JStr "ckpt")]
        ++ ("files", JArr [ckpt_file]) :: []
        ++ ("download", JArr [ckpt_download]) :: [("size", JNum 4)]))
    no_locals
  = rfold (config_entry_body env
             (JObj [("files", JArr [ckpt_file]); ("download", JArr [ckpt_download])]))
      (map (fun kv => JStr (fst kv))
         [("files", JArr [ckpt_file]); ("download", JArr [ckpt_download])])
      no_locals.
Proof.
  apply (other_config_keys_are_ignored env [("format", JStr "ckpt")] []
           [("size", JNum 4)] (JArr [ckpt_file]) (JArr [ckpt_download]) no_locals);
    reflexivity.
Defined.

Lemma config_checks_only_mark_slow_downloads_witness :
  exists hosts cfg' w',
    normalize_and_convert_config_entries env "model a" two_downloads fresh_process
    = (Ok (hosts, cfg'), w')
    /\ cfg' = map mark_slow_entry two_downloads.
Proof.
  let res := eval vm_compute in
    (normalize_and_convert_config_entries env "model a" two_downloads fresh_process) in
  lazymatch res with
  | (Ok (?h, ?c), ?w) =>
      exists h, c, w;
      assert (H : normalize_and_convert_config_entries env "model a" two_downloads
                    fresh_process = (Ok (h, c), w)) by (vm_compute; reflexivity);
      split; [exact H|];
      exact (proj1 (config_checks_only_mark_slow_downloads env "model a" two_downloads
                      c h fresh_process w H))
  end.
Defined.

Lemma download_hosts_count_every_url_witness :
  exists hosts cfg' w',
    normalize_and_convert_config_entries env "model a" two_downloads fresh_process
    = (Ok (hosts, cfg'), w')
    /\ total hosts = 1.
Proof.
  let res := eval vm_compute in
    (normalize_and_convert_config_entries env "model a" two_downloads fresh_process) in
  lazymatch res with
  | (Ok (?h, ?c), ?w) =>
      exists h, c, w;
      assert (H : normalize_and_convert_config_entries env "model a" two_downloads
                    fresh_process = (Ok (h, c), w)) by (vm_compute; reflexivity);
      split; [exact H|];
      exact (download_hosts_count_every_url env "model a" two_downloads
               c h fresh_process w H)
  end.
Defined.

Lemma loop_body_changes_baseline_showcases_and_marks_only_witness :
  exists t' w' r',
    process_record env self existing no_tables "model a" declared_record fresh_process
    = (Ok t', w')
    /\ dict_get "model a" (all_model_records w') = Some r'
    /\ name r' = "model a" /\ baseline r' = "stable_diffusion_1".
Proof.
  let res := eval vm_compute in
    (process_record env self existing no_tables "model a" declared_record
       fresh_process) in
  lazymatch res with
  | (Ok ?t, ?w) =>
      exists t, w;
      assert (H : process_record env self existing no_tables "model a" declared_record
                    fresh_process = (Ok t, w)) by (vm_compute; reflexivity);
      destruct (loop_body_changes_baseline_showcases_and_marks_only env self existing
                  no_tables t "model a" declared_record fresh_process w H)
        as (r' & Hget & Hname & _ & _ & _ & _ & _ & _ & Hbase & _);
      exists r'; split; [exact H|]; split; [exact Hget|]; split;
        [exact Hname|exact Hbase]
  end.
Defined.

Lemma styles_and_baselines_count_the_same_records_witness :
  exists t w',
    convert_and_report env self database_missing_name fresh_process = (Ok t, w')
    /\ total (all_styles t) = total (all_baseline_types t)
    /\ total (all_styles t) <= 2.
Proof.
  let res := eval vm_compute in
    (convert_and_report env self database_missing_name fresh_process) in
  lazymatch res with
  | (Ok ?t, ?w) =>
      exists t, w;
      assert (H : convert_and_report env self database_missing_name fresh_process
                  = (Ok t, w)) by (vm_compute; reflexivity);
      split; [exact H|];
      exact (styles_and_baselines_count_the_same_records env self
               database_missing_name t fresh_process w H)
  end.
Defined.

Lemma declared_showcase_without_folder_aborts_run_witness :
  exists w',
    normalize_and_convert env self
      [("model z", legacy_record "model z" ["https://example.org/z.png"]
                     (JObj files_first))] fresh_process
    = (Raise (KeyError (Some "model_z")), w')
    /\ written_files w' = written_files fresh_process.
Proof.
  let res := eval vm_compute in
    (iterate_step env self "model z"
       (legacy_record "model z" ["https://example.org/z.png"] (JObj files_first))
       fresh_process) in
  lazymatch res with
  | (Ok (Some ?r), ?w2) =>
      assert (H : iterate_step env self "model z"
                    (legacy_record "model z" ["https://example.org/z.png"]
                       (JObj files_first)) fresh_process = (Ok (Some r), w2))
        by (vm_compute; reflexivity);
      destruct (declared_showcase_without_folder_aborts_run env self [] [] "model z"
                  _ no_tables fresh_process fresh_process w2 r
                  "https://example.org/z.png" [] eq_refl H eq_refl eq_refl)
        as (w' & H1 & H2 & _)
  end.
  exists w'. split; [exact H1|exact H2].
Defined.

Lemma print_errors_off_silences_logged_findings_witness :
  stdout (snd (generic_record_sanity_checks quiet "model a" declared_record
                 fresh_process)) = stdout fresh_process.
Proof.
  exact (proj1 (proj2 (print_errors_off_silences_logged_findings env quiet eq_refl))
           "model a" declared_record fresh_process).
Defined.

Lemma findings_go_under_the_record_key_witness :
  findings
    (all_validation_errors_log
       (snd (stream_record env self existing no_tables
               ("model a", legacy_record "model a" ["https://huggingface.co/old.png"]
                             (JObj files_first)) fresh_process))) "model b"
  = findings (all_validation_errors_log fresh_process) "model b".
Proof.
  apply (findings_go_under_the_record_key env self existing no_tables
           ("model a", legacy_record "model a" ["https://huggingface.co/old.png"]
                         (JObj files_first)) "model b" fresh_process).
  discriminate.
Defined.

End MoreRuns.

(** ** The showcase folders found after the records *)

Lemma for_each_never_raises {A S} (body : S -> A -> M S) (l : list A) :
  (forall x, In x l -> forall s, never_raises (body s x)) ->
  forall s, never_raises (for_each body l s).
Proof.
  induction l as [|x l IH]; intros H s; simpl.
  - apply never_raises_ret.
  - apply never_raises_bind; [apply H; left; reflexivity|].
    intros s'. apply IH. intros y Hy. apply H. right. exact Hy.
Qed.

Lemma for_each_skips {A} (body : unit -> A -> M unit) (l : list A) (w : world) :
  (forall x, In x l -> body tt x w = (Ok tt, w)) ->
  for_each body l tt w = (Ok tt, w).
Proof.
  induction l as [|x l IH]; intros H; simpl; [reflexivity|].
  rewrite (bind_ok _ _ _ _ _ (H x (or_introl eq_refl))).
  apply IH. intros y Hy. apply H. right. exact Hy.
Qed.

Lemma add_validation_error_to_log_findings (self : converter) (k e : string) (w : world) :
  findings (all_validation_errors_log (snd (add_validation_error_to_log self k e w))) k
  = (findings (all_validation_errors_log w) k ++ [e])%list.
Proof.
  unfold add_validation_error_to_log, bind, when, print, ret.
  destruct (print_errors self); simpl; rewrite findings_log_append;
    destruct (decide (k = k)); congruence.
Qed.

Section FinalFolders.

Variable X : externals.

(** X15.  On a tidy disk the final checks find nothing: when every showcase
    folder found after the records is non-empty and every directory among
    them is the showcase folder of a record in the record mapping, the state
    is left as it was and the names of the directories are returned. *)
Theorem tidy_showcase_folders_yield_no_finding (self : converter) (w : world) :
  (forall f, In f (glob_showcase_after X) -> is_file X f = false ->
     exists e es, iterdir X f = Ok (e :: es)) ->
  (forall f, In f (glob_showcase_after X) -> is_dir X f = true ->
     exists k r, In (k, r) (all_model_records w)
                 /\ model_name_to_showcase_folder_name X k = path_name X f) ->
  check_final_folders X self w
  = (Ok (map (path_name X) (List.filter (is_dir X) (glob_showcase_after X))), w).
Proof.
  intros Hfull Hknown. unfold check_final_folders.
  rewrite (bind_ok _ _ w w tt).
  - unfold bind at 1. unfold get_world at 1.
    rewrite (bind_ok _ _ w w tt); [reflexivity|].
    apply for_each_skips. intros n Hn.
    apply in_map_iff in Hn as (f & <- & Hf). apply filter_In in Hf as [Hf Hdir].
    destruct (Hknown f Hf Hdir) as (k & r & Hin & Hname).
    assert (Hex : existsb (String.eqb (path_name X f))
                    (map (fun kv => model_name_to_showcase_folder_name X (fst kv))
                       (all_model_records w)) = true).
    { apply existsb_exists. exists (path_name X f).
      split; [|apply String.eqb_refl].
      apply in_map_iff. exists (k, r). split; [exact Hname|exact Hin]. }
    rewrite Hex. reflexivity.
  - apply for_each_skips. intros f Hf.
    destruct (is_file X f) eqn:Hfile; [reflexivity|].
    destruct (Hfull f Hf Hfile) as (e & es & Hiter).
    unfold bind, lift. rewrite Hiter. reflexivity.
Qed.

(** X16.  An empty showcase folder is reported under its folder name: when
    the folders found before it can be listed, a folder that is not a file
    and has no entry gets the finding "showcase folder '...' is empty." among
    the findings of its name, however the checks end. *)
Theorem empty_showcase_folder_is_reported (self : converter) (w : world)
    (before after : list string) (f : string) :
  glob_showcase_after X = (before ++ f :: after)%list ->
  (forall f', In f' before -> is_file X f' = true \/ exists es, iterdir X f' = Ok es) ->
  is_file X f = false -> iterdir X f = Ok [] ->
  In ("showcase folder '" +:+ path_name X f +:+ "' is empty.")
     (findings (all_validation_errors_log (snd (check_final_folders X self w)))
        (path_name X f)).
Proof.
  intros Hglob Hbefore Hfile Hiter. unfold check_final_folders.
  pose (body := fun (_ : unit) (folder : string) =>
                 if is_file X folder then ret tt
                 else
                   entries <- lift (iterdir X folder) ;;
                   when (match entries with [] => true | _ => false end)
                     (add_validation_error_to_log self (path_name X folder)
                        ("showcase folder '" +:+ path_name X folder +:+ "' is empty."))).
  pose (rest := fun _ : unit =>
                 w0 <- get_world ;;
                 for_each
                   (fun _ folder =>
                      when (negb (existsb (String.eqb folder)
                                    (map (fun kv =>
                                            model_name_to_showcase_folder_name X (fst kv))
                                       (all_model_records w0))))
                        (add_validation_error_to_log self folder
                           ("folder '" +:+ folder +:+ "' is not in the model records.")))
                   (map (path_name X) (List.filter (is_dir X) (glob_showcase_after X)))
                   tt ;;;
                 ret (map (path_name X)
                        (List.filter (is_dir X) (glob_showcase_after X)))).
  change (In ("showcase folder '" +:+ path_name X f +:+ "' is empty.")
            (findings
               (all_validation_errors_log
                  (snd ((x <- for_each body (glob_showcase_after X) tt ;; rest x) w)))
               (path_name X f))).
  assert (Hloop : forall s, never_raises (for_each body before s)).
  { apply for_each_never_raises. intros f' Hf' s w0. unfold body.
    destruct (Hbefore f' Hf') as [Hf|[es Hes]].
    - rewrite Hf. unfold ret. eauto.
    - destruct (is_file X f'); [unfold ret; eauto|].
      unfold bind, lift. rewrite Hes.
      destruct es; simpl; [apply never_raises_log|unfold ret; eauto]. }
  destruct (Hloop tt w) as ([] & w1 & Hw1).
  assert (Hmoves : moves log_le all_validation_errors_log
                     (x <- for_each body after tt ;; rest x)).
  { unfold body, rest. moves_all. }
  assert (Hrun : (x <- for_each body (glob_showcase_after X) tt ;; rest x) w
                 = (x <- for_each body after tt ;; rest x)
                     (snd (add_validation_error_to_log self (path_name X f)
                             ("showcase folder '" +:+ path_name X f +:+ "' is empty.")
                             w1))).
  { unfold bind at 1. rewrite Hglob at 1. rewrite for_each_app, (bind_ok _ _ _ _ _ Hw1).
    simpl. unfold bind at 1. unfold body at 1. rewrite Hfile.
    unfold bind at 1. unfold lift at 1. rewrite Hiter. simpl.
    destruct (add_validation_error_to_log_ok self (path_name X f)
                ("showcase folder '" +:+ path_name X f +:+ "' is empty.") w1)
      as (w2 & Hw2).
    rewrite Hw2. reflexivity. }
  rewrite Hrun.
  match goal with
  | |- context [snd (?c ?w2)] =>
      match c with
      | bind _ _ => destruct (Hmoves w2 (path_name X f)) as [more Hmore]
      end
  end.
  rewrite Hmore, add_validation_error_to_log_findings.
  apply in_or_app. left. apply in_or_app. right. left. reflexivity.
Qed.

End FinalFolders.

Section FolderRuns.

Import Demo.

Lemma tidy_showcase_folders_yield_no_finding_witness :
  check_final_folders env self one_record = (Ok ["model_a"], one_record).
Proof.
  apply (tidy_showcase_folders_yield_no_finding env self one_record).
  - intros f [<-|[]] _. eexists _, _. vm_compute. reflexivity.
  - intros f [<-|[]] _. exists "model a", declared_record.
    split; [left; reflexivity|vm_compute; reflexivity].
Defined.

Lemma empty_showcase_folder_is_reported_witness :
  In "showcase folder 'model_b' is empty."
     (findings
        (all_validation_errors_log
           (snd (check_final_folders (env_with_after [folder_a; folder_b]) self
                   one_record))) "model_b").
Proof.
  apply (empty_showcase_folder_is_reported (env_with_after [folder_a; folder_b]) self
           one_record [folder_a] [] folder_b).
  - reflexivity.
  - intros f' [<-|[]]. right. eexists. vm_compute. reflexivity.
  - reflexivity.
  - reflexivity.
Defined.

End FolderRuns.

(** ** Frequency tables *)

Lemma count_incr (k x : string) (c : counts) :
  count (incr k c) x = count c x + (if String.eqb x k then 1 else 0).
Proof.
  unfold count. induction c as [|[k' n] c IH]; simpl.
  - destruct (String.eqb x k); reflexivity.
  - destruct (eqb_string_spec k k') as [->|Hne]; simpl.
    + destruct (String.eqb x k'); simpl; lia.
    + destruct (eqb_string_spec x k') as [->|Hx]; simpl.
      * destruct (eqb_string_spec k' k) as [->|_]; [contradiction|lia].
      * exact IH.
Qed.

Lemma count_fold_incr (l : list string) (c : counts) (x : string) :
  count (fold_left (fun acc tag => incr tag acc) l c) x = count c x + occurrences x l.
Proof.
  unfold occurrences. revert c. induction l as [|y l IH]; intros c; simpl; [lia|].
  rewrite IH, count_incr. destruct (String.eqb x y); simpl; lia.
Qed.

Lemma incr_keys (k : string) (c : counts) :
  In k (map fst c) /\ map fst (incr k c) = map fst c
  \/ ~ In k (map fst c) /\ map fst (incr k c) = (map fst c ++ [k])%list.
Proof.
  induction c as [|[k' n] c IH]; simpl.
  - right. split; [tauto|reflexivity].
  - destruct (eqb_string_spec k k') as [->|Hne]; simpl.
    + left. split; [left; reflexivity|reflexivity].
    + destruct IH as [[Hin ->]|[Hnin ->]].
      * left. split; [right; exact Hin|reflexivity].
      * right. split; [intros [Heq|Hin]; [congruence|contradiction]|reflexivity].
Qed.

Lemma incr_counted (k : string) (c : counts) : counted c -> counted (incr k c).
Proof.
  intros [Hnd Hpos]. split.
  - destruct (incr_keys k c) as [[_ ->]|[Hnin ->]]; [exact Hnd|].
    apply NoDup_app. split; [exact Hnd|]. split.
    + intros y Hy [->|[]]%list_elem_of_In. apply Hnin, list_elem_of_In. exact Hy.
    + apply NoDup_singleton.
  - clear Hnd. induction c as [|[k' n] c IH]; simpl.
    + constructor; [simpl; lia|constructor].
    + apply Forall_cons_1 in Hpos as [Hn Hpos].
      destruct (String.eqb k k'); constructor; simpl in *; auto; lia.
Qed.

Lemma counted_count (c : counts) (x : string) :
  counted c -> (0 < count c x <-> In x (map fst c)).
Proof.
  intros [_ Hpos]. unfold count. induction c as [|[k n] c IH]; simpl.
  - split; [lia|tauto].
  - apply Forall_cons_1 in Hpos as [Hn Hpos]. simpl in Hn.
    destruct (eqb_string_spec x k) as [->|Hne]; simpl.
    + split; [intros _; left; reflexivity|intros _; exact Hn].
    + rewrite (IH Hpos). split; [tauto|intros [Heq|Hin]; [congruence|exact Hin]].
Qed.

(** Counting once each key of a table built by increments. *)
Lemma count_fold_keys (hosts : counts) (c : counts) (x : string) :
  counted hosts ->
  count (fold_left (fun acc host => incr (fst host) acc) hosts c) x
  = count c x + Nat.min 1 (count hosts x).
Proof.
  intros Hc.
  assert (Hfold : forall l c0,
             fold_left (fun acc (host : string * nat) => incr (fst host) acc) l c0
             = fold_left (fun acc tag => incr tag acc) (map fst l) c0).
  { induction l as [|h l IH]; intros c0; simpl; [reflexivity|apply IH]. }
  rewrite Hfold, count_fold_incr. f_equal.
  pose proof (counted_count hosts x Hc) as Hiff. destruct Hc as [Hnd _].
  unfold occurrences.
  assert (Hocc : forall l : list string, NoDup l ->
             length (List.filter (String.eqb x) l) = if decide (x ∈ l) then 1 else 0).
  { clear. induction l as [|y l IH]; intros Hnd; simpl.
    - destruct (decide (x ∈ [])) as [Hin|_]; [|reflexivity].
      apply elem_of_nil in Hin. destruct Hin.
    - apply NoDup_cons in Hnd as [Hy Hnd]. specialize (IH Hnd).
      destruct (eqb_string_spec x y) as [->|Hne]; simpl.
      + rewrite IH. destruct (decide (y ∈ l)); [contradiction|].
        destruct (decide (y ∈ y :: l)) as [_|Hn]; [reflexivity|].
        exfalso. apply Hn. left.
      + rewrite IH.
        destruct (decide (x ∈ l)) as [Hin|Hnin],
                 (decide (x ∈ y :: l)) as [Hin'|Hnin']; try reflexivity.
        * exfalso. apply Hnin'. right. exact Hin.
        * exfalso. apply elem_of_cons in Hin' as [Heq|Hin']; [congruence|contradiction]. }
  rewrite (Hocc _ Hnd).
  destruct (decide (x ∈ map fst hosts)) as [Hin|Hnin].
  - apply list_elem_of_In, Hiff in Hin. lia.
  - assert (count hosts x = 0).
    { destruct (count hosts x) eqn:E; [reflexivity|].
      exfalso. apply Hnin, list_elem_of_In, Hiff. lia. }
    lia.
Qed.

Section Tables.

Variable X : externals.

Lemma check_download_record_hosts (k : string) (st st' : counts * list config_record)
    (d : Legacy_Config_DownloadRecord) (w w' : world) :
  check_download_record X k st d w = (Ok st', w') ->
  (forall y, count (fst st') y
             = count (fst st) y + (if hosted_at X y (CfgDownload d) then 1 else 0))
  /\ (counted (fst st) -> counted (fst st')).
Proof.
  unfold check_download_record, hosted_at, download_host, has_url.
  unfold bind, when, print, ret, try_except_reraise, raise.
  destruct (is_none_or_empty (dl_file_name d));
    destruct (dl_file_path d) as [fp|]; try destruct (negb (String.eqb fp ""));
    destruct (is_none_or_empty (dl_file_url d));
    try destruct (urlparse_netloc X (default "" (dl_file_url d))) as [host|];
    simpl; intros H; try discriminate H; injection H as <- _; simpl;
    (split; [intros y; rewrite ?count_incr; try rewrite (String.eqb_sym host y);
             try destruct (String.eqb y host); lia
            |intros Hc; try apply incr_counted; exact Hc]).
Qed.

Lemma check_download_loop_hosts (k : string) (items : list config_record)
    (st st' : counts * list config_record) (w w' : world) :
  for_each (check_download X k) items st w = (Ok st', w') ->
  (forall y, count (fst st') y
             = count (fst st) y + length (List.filter (hosted_at X y) items))
  /\ (counted (fst st) -> counted (fst st')).
Proof.
  revert st w. induction items as [|i items IH]; intros st w H; simpl in H.
  - unfold ret in H. injection H as <- _. split; [intros y; simpl; lia|tauto].
  - apply bind_inv_ok in H as (st1 & w1 & Hi & H).
    destruct i as [f|d]; simpl in Hi.
    + apply bind_inv_ok in Hi as (u & w2 & _ & Hi). discriminate Hi.
    + apply check_download_record_hosts in Hi as [Hi1 Hi2].
      apply IH in H as [H1 H2]. split; [|tauto].
      intros y. rewrite H1, Hi1. simpl.
      destruct (hosted_at X y (CfgDownload d)); simpl; lia.
Qed.

Lemma check_config_loop_hosts (k : string) (cfg : list (string * list config_record))
    (st st' : counts * list (string * list config_record)) (w w' : world) :
  for_each (check_config_entry X k) cfg st w = (Ok st', w') ->
  (forall y, count (fst st') y = count (fst st) y + hosted_at_count X y cfg)
  /\ (counted (fst st) -> counted (fst st')).
Proof.
  unfold hosted_at_count.
  revert st w. induction cfg as [|[key items] cfg IH]; intros st w H; simpl in H.
  - unfold ret in H. injection H as <- _. split; [intros y; simpl; lia|tauto].
  - apply bind_inv_ok in H as (st1 & w1 & Hentry & H).
    apply IH in H as [H1 H2].
    assert (Hentry' :
              (forall y, count (fst st1) y
                         = count (fst st) y + entry_hosted_at X y (key, items))
              /\ (counted (fst st) -> counted (fst st1))).
    { unfold check_config_entry, entry_hosted_at in *. cbn [fst snd] in *.
      destruct (String.eqb key "files"); [|destruct (String.eqb key "download")].
      - apply bind_inv_ok in Hentry as (u & w2 & _ & Hentry).
        unfold ret in Hentry. injection Hentry as <- _. simpl.
        split; [intros y; lia|tauto].
      - apply bind_inv_ok in Hentry as (r & w2 & Hloop & Hentry).
        unfold ret in Hentry. injection Hentry as <- _. simpl.
        apply check_download_loop_hosts in Hloop as [Hl1 Hl2]. simpl in Hl1, Hl2.
        split; [exact Hl1|exact Hl2].
      - unfold ret in Hentry. injection Hentry as <- _. simpl.
        split; [intros y; lia|tauto]. }
    destruct Hentry' as [He1 He2]. split; [|tauto].
    intros y. rewrite H1, He1. simpl. lia.
Qed.

Lemma counted_nil : counted [].
Proof. split; constructor. Qed.

(** X17.  When the config checks end well, the hosts table they return holds,
    for every host, the number of downloads whose URL is at that host. *)
Theorem download_hosts_count_per_host (k : string)
    (cfg cfg' : list (string * list config_record)) (hosts : counts) (w w' : world) :
  normalize_and_convert_config_entries X k cfg w = (Ok (hosts, cfg'), w') ->
  forall host : string, count hosts host = hosted_at_count X host cfg.
Proof.
  unfold normalize_and_convert_config_entries. intros H host.
  apply check_config_loop_hosts in H as [H _]. exact (H host).
Qed.

(** X18.  A pass of the loop body that ends well adds to the tables: one to
    the count of the record's style, one to the count of its converted
    baseline, one to the count of a tag for each occurrence of the tag in the
    record's tags, and one to the count of every host that serves at least one
    of the record's downloads, however many it serves.  No other count
    changes. *)
Theorem loop_body_counts (self : converter) (existing : gmap string (list string))
    (t t' : tables) (k : string) (r : Legacy_StableDiffusion_ModelRecord)
    (w w' : world) :
  process_record X self existing t k r w = (Ok t', w') ->
  forall x : string,
    count (all_styles t') x
    = count (all_styles t) x + (if String.eqb x (style r) then 1 else 0)
    /\ count (all_baseline_types t') x
       = count (all_baseline_types t) x
         + (if String.eqb x (convert_legacy_baseline (baseline r)) then 1 else 0)
    /\ count (all_tags t') x
       = count (all_tags t) x + occurrences x (default [] (tags r))
    /\ count (all_model_hosts t') x
       = count (all_model_hosts t) x + Nat.min 1 (hosted_at_count X x (config r)).
Proof.
  unfold process_record. intros H x.
  apply bind_inv_ok in H as (u1 & w1 & _ & H).
  apply bind_inv_ok in H as (u2 & w2 & _ & H).
  apply bind_inv_ok in H as (u3 & w3 & _ & H).
  apply bind_inv_ok in H as (u4 & w4 & _ & H).
  apply bind_inv_ok in H as (r2 & w5 & Hr2 & H).
  apply bind_inv_ok in H as (u6 & w6 & _ & H).
  apply bind_inv_ok in H as ([hosts cfg'] & w7 & Hfound & H).
  apply bind_inv_ok in H as (u8 & w8 & _ & H).
  unfold ret in H. injection H as <- _. simpl.
  pose proof (reconcile_showcases_config X _ _ _ _ _ _ _ _ Hr2) as Hcfg.
  simpl in Hcfg. rewrite Hcfg in Hfound.
  assert (Htags : tags r2 = tags r).
  { apply reconcile_showcases_shape in Hr2 as [->|[l ->]]; reflexivity. }
  unfold normalize_and_convert_config_entries in Hfound.
  apply check_config_loop_hosts in Hfound as [Hhosts Hcounted]. simpl in Hhosts.
  specialize (Hcounted counted_nil). simpl in Hcounted.
  rewrite !count_incr, Htags. repeat split.
  - destruct (tags r) as [l|]; simpl; [apply count_fold_incr|].
    unfold occurrences. simpl. lia.
  - rewrite (count_fold_keys hosts _ x Hcounted), Hhosts. reflexivity.
Qed.

End Tables.

Section TableRuns.

Import Demo.

Lemma download_hosts_count_per_host_witness :
  exists hosts cfg' w',
    normalize_and_convert_config_entries env "model a" two_downloads fresh_process
    = (Ok (hosts, cfg'), w')
    /\ count hosts "civitai.com" = 1.
Proof.
  let res := eval vm_compute in
    (normalize_and_convert_config_entries env "model a" two_downloads fresh_process) in
  lazymatch res with
  | (Ok (?h, ?c), ?w) =>
      exists h, c, w;
      assert (H : normalize_and_convert_config_entries env "model a" two_downloads
                    fresh_process = (Ok (h, c), w)) by (vm_compute; reflexivity);
      split; [exact H|];
      exact (download_hosts_count_per_host env "model a" two_downloads
               c h fresh_process w H "civitai.com")
  end.
Defined.

Lemma loop_body_counts_witness :
  exists t' w',
    process_record env self existing no_tables "model a" declared_record fresh_process
    = (Ok t', w')
    /\ count (all_styles t') "generalist" = 1
    /\ count (all_baseline_types t') "stable_diffusion_1" = 1.
Proof.
  let res := eval vm_compute in
    (process_record env self existing no_tables "model a" declared_record
       fresh_process) in
  lazymatch res with
  | (Ok ?t, ?w) =>
      exists t, w;
      assert (H : process_record env self existing no_tables "model a" declared_record
                    fresh_process = (Ok t, w)) by (vm_compute; reflexivity);
      split; [exact H|];
      split;
        [exact (proj1 (loop_body_counts env self existing no_tables t "model a"
                         declared_record fresh_process w H "generalist"))
        |exact (proj1 (proj2 (loop_body_counts env self existing no_tables t "model a"
                                declared_record fresh_process w H
                                "stable_diffusion_1")))]
  end.
Defined.

End TableRuns.
